(** * Verification model of the clip_react backend ([backend/main.py])

    The backend is a FastAPI application around one open_clip model.  The
    model, the tokenizer, PIL and the JSON parser are opaque libraries: they
    are Section variables below, and the theorems hold for every choice of
    them.  Tensor entries are modelled as real numbers extended with the IEEE
    non-finite values (NaN, +inf, -inf) that torch produces when it divides
    by zero; rounding (the bfloat16 autocast) is not modelled. *)

From Stdlib Require Import Reals Lra Lia List String Bool ZArith.
Import ListNotations.
Open Scope R_scope.
Open Scope string_scope.
Set Warnings "-register-all".

(** ** Tensor scalars *)

Inductive flt : Type :=
| Fin (r : R)
| NaN
| Inf (neg : bool).

Definition is_fin (x : flt) : bool :=
  match x with Fin _ => true | _ => false end.

(** torch scalar division: [x / 0] is NaN for [x = 0] and a signed infinity
    otherwise. *)
Definition fdiv (x y : flt) : flt :=
  match x, y with
  | NaN, _ | _, NaN => NaN
  | Inf _, Inf _ => NaN
  | Inf a, Fin y => if Req_dec_T y 0 then Inf a
                    else Inf (xorb a (if Rlt_dec y 0 then true else false))
  | Fin _, Inf _ => Fin 0
  | Fin x, Fin y =>
      if Req_dec_T y 0 then
        (if Req_dec_T x 0 then NaN else Inf (if Rlt_dec x 0 then true else false))
      else Fin (x / y)
  end.

Definition fmul (x y : flt) : flt :=
  match x, y with
  | NaN, _ | _, NaN => NaN
  | Inf a, Inf b => Inf (xorb a b)
  | Inf a, Fin y | Fin y, Inf a =>
      if Req_dec_T y 0 then NaN
      else Inf (xorb a (if Rlt_dec y 0 then true else false))
  | Fin x, Fin y => Fin (x * y)
  end.

Definition fadd (x y : flt) : flt :=
  match x, y with
  | NaN, _ | _, NaN => NaN
  | Inf a, Inf b => if Bool.eqb a b then Inf a else NaN
  | Inf a, Fin _ => Inf a
  | Fin _, Inf b => Inf b
  | Fin x, Fin y => Fin (x + y)
  end.

(** ** Vectors: [tensor.norm(dim=-1)] and [x / x.norm(dim=-1, keepdim=True)] *)

Definition vec := list R.

Fixpoint sumsq (v : vec) : R :=
  match v with [] => 0 | x :: v' => x * x + sumsq v' end.

(** L2 norm of a (finite) encoder output row. *)
Definition norm (v : vec) : R := sqrt (sumsq v).

(** One row of [features / features.norm(dim=-1, keepdim=True)]: every entry
    is divided by the row's norm, with no guard for a zero norm. *)
Definition normalize (v : vec) : list flt :=
  map (fun x => fdiv (Fin x) (Fin (norm v))) v.

(** [a @ b.T] for one pair of rows; torch raises on a shape mismatch. *)
Fixpoint fdot (a b : list flt) : option flt :=
  match a, b with
  | [], [] => Some (Fin 0)
  | x :: a', y :: b' =>
      match fdot a' b' with Some s => Some (fadd (fmul x y) s) | None => None end
  | _, _ => None
  end.

Fixpoint omap {A B : Type} (f : A -> option B) (l : list A) : option (list B) :=
  match l with
  | [] => Some []
  | x :: l' =>
      match f x, omap f l' with
      | Some y, Some ys => Some (y :: ys)
      | _, _ => None
      end
  end.

(** [m @ n.T]: row [i] of the result holds the products of row [i] of [m]
    with every row of [n]. *)
Definition matmul_T (m n : list (list flt)) : option (list (list flt)) :=
  omap (fun r => omap (fdot r) n) m.

(** [c * m] for a Python float [c] and a tensor [m]. *)
Definition fscale (c : R) (m : list (list flt)) : list (list flt) :=
  map (map (fmul (Fin c))) m.

Fixpoint sumR (l : list R) : R :=
  match l with [] => 0 | x :: l' => x + sumR l' end.

(** [softmax(dim=-1)] of one row (torch computes [exp(x - max) / sum], the
    same values in exact arithmetic): a NaN or +inf in the row makes every
    entry NaN, a -inf entry gets probability 0, a row of -inf only is NaN,
    and an empty row stays empty. *)
Definition softmax (row : list flt) : list flt :=
  if existsb (fun x => match x with NaN | Inf false => true | _ => false end) row
  then map (fun _ => NaN) row
  else if existsb is_fin row then
    let S := sumR (map (fun x => match x with Fin r => exp r | _ => 0 end) row) in
    map (fun x => match x with Fin r => Fin (exp r / S) | _ => Fin 0 end) row
  else map (fun _ => NaN) row.

(** ** JSON values (Python objects built from JSON, and response bodies) *)

Inductive json : Type :=
| JNull
| JBool (b : bool)
| JNum (x : flt)
| JStr (s : string)
| JArr (l : list json)
| JObj (fields : list (string * json)).

(** Starlette's [JSONResponse.render] calls [json.dumps(..., allow_nan=False)],
    which raises on NaN and infinities. *)
Fixpoint json_finite (j : json) : bool :=
  match j with
  | JNum x => is_fin x
  | JArr l => forallb json_finite l
  | JObj fs => forallb (fun p => json_finite (snd p)) fs
  | _ => true
  end.

Fixpoint lookup (k : string) (fs : list (string * json)) : option json :=
  match fs with
  | [] => None
  | (k', v) :: fs' => if String.eqb k k' then Some v else lookup k fs'
  end.

(** [tensor.tolist()] of a 2-d and of a 1-d tensor. *)
Definition tolist (m : list (list flt)) : json :=
  JArr (map (fun r => JArr (map JNum r)) m).

Definition tolist_row (r : list flt) : json := JArr (map JNum r).

(** ** Exceptions and the [TextInput] schema *)

Inductive exn : Type :=
| JSONDecodeError
| TypeError
| ValidationError
| UnidentifiedImageError
| RuntimeError
| IndexError.

Inductive result (A : Type) : Type :=
| Ok (a : A)
| Err (e : exn).
Arguments Ok {A} a.
Arguments Err {A} e.

(** [class TextInput(BaseModel): text_list: List[str]] *)
Record TextInput : Type := mkTextInput { text_list : list string }.

Definition str_of (j : json) : option string :=
  match j with JStr s => Some s | _ => None end.

(** pydantic validation of the fields of a [TextInput]: [text_list] must be
    present and be a list of strings (no coercion of other values into
    strings); other keys are ignored. *)
Definition validate_TextInput (fs : list (string * json)) : option TextInput :=
  match lookup "text_list" fs with
  | Some (JArr l) =>
      match omap str_of l with Some ss => Some (mkTextInput ss) | None => None end
  | _ => None
  end.

(** [TextInput( ** d)]: a non-mapping [d] raises [TypeError], a mapping that
    fails validation raises pydantic's [ValidationError]. *)
Definition TextInput_kwargs (d : json) : result TextInput :=
  match d with
  | JObj fs =>
      match validate_TextInput fs with Some t => Ok t | None => Err ValidationError end
  | _ => Err TypeError
  end.

(** ** A small state-and-exception monad for request handlers *)

Definition bytes := list Byte.byte.

Section Backend.

(** Opaque library types: a PIL image, a preprocessed pixel tensor and a
    batch of token ids. *)
Context {Image Pixels Tokens : Type}.

(** [json.loads]: [None] when it raises [JSONDecodeError]. *)
Variable json_loads : string -> option json.

(** [Image.open(io.BytesIO(data))]: [None] when PIL cannot identify an
    image. *)
Variable Image_open : bytes -> option Image.

(** The open_clip model: [encode_image] maps each preprocessed image of a
    batch to one row, [encode_text] maps a batch of token ids to a batch of
    rows and may raise. *)
Record Model : Type := mkModel {
  model_encode_image : Pixels -> vec;
  model_encode_text : Tokens -> option (list vec)
}.

(** The module-level globals of [main.py]. *)
Record Globals : Type := mkGlobals {
  model : Model;
  tokenizer : list string -> Tokens;
  preprocess_val : Image -> Pixels;
  device : string
}.

Definition M (A : Type) : Type := Globals -> result A * Globals.

Definition ret {A : Type} (a : A) : M A := fun g => (Ok a, g).

Definition bind {A B : Type} (m : M A) (k : A -> M B) : M B :=
  fun g => match m g with
           | (Ok a, g') => k a g'
           | (Err e, g') => (Err e, g')
           end.

Definition get : M Globals := fun g => (Ok g, g).

Definition raise {A : Type} (e : exn) : M A := fun g => (Err e, g).

Definition of_option {A : Type} (e : exn) (o : option A) : M A :=
  match o with Some a => ret a | None => raise e end.

Definition of_result {A : Type} (r : result A) : M A :=
  match r with Ok a => ret a | Err e => raise e end.

Local Notation "x <- c ;; k" := (bind c (fun x => k))
  (at level 61, c at next level, right associativity).

(** ** The three handlers of [main.py] *)

(** [@app.post("/encode_image/")] *)
Definition encode_image (file : bytes) : M json :=
  g <- get ;;
  image <- of_option UnidentifiedImageError (Image_open file) ;;
  let processed_image := [preprocess_val g image] in
  let image_features := map (model_encode_image (model g)) processed_image in
  let image_features := map normalize image_features in
  ret (JObj [("features", tolist image_features)]).

(** [@app.post("/encode_text/")] *)
Definition encode_text (text_input : TextInput) : M json :=
  g <- get ;;
  let text := tokenizer g (text_list text_input) in
  text_features <- of_option RuntimeError (model_encode_text (model g) text) ;;
  let text_features := map normalize text_features in
  ret (JObj [("features", tolist text_features)]).

(** [@app.post("/compute_similarity/")]; [100.0 * a @ b.T] parses as
    [(100.0 * a) @ b.T]. *)
Definition compute_similarity (file : bytes) (text_input : string) : M json :=
  g <- get ;;
  text_input_dict <- of_option JSONDecodeError (json_loads text_input) ;;
  text_input_obj <- of_result (TextInput_kwargs text_input_dict) ;;
  image <- of_option UnidentifiedImageError (Image_open file) ;;
  let processed_image := [preprocess_val g image] in
  let text := tokenizer g (text_list text_input_obj) in
  let image_features := map (model_encode_image (model g)) processed_image in
  text_features <- of_option RuntimeError (model_encode_text (model g) text) ;;
  let image_features := map normalize image_features in
  let text_features := map normalize text_features in
  logits <- of_option RuntimeError
              (matmul_T (fscale 100 image_features) text_features) ;;
  let text_probs := map softmax logits in
  row0 <- of_option IndexError (nth_error text_probs 0) ;;
  ret (JObj [("probabilities", tolist_row row0);
             ("labels", JArr (map JStr (text_list text_input_obj)))]).

(** ** FastAPI's request handling *)

(** A response: its status code and, for a 200, its JSON body (error bodies,
    a [detail] message or plain text, are not modelled). *)
Record http_response : Type := mkResponse { status : Z; body : option json }.

Definition resp_error (code : Z) : http_response := mkResponse code None.

(** An exception escaping a handler becomes a 500; a returned value is
    rendered by [JSONResponse], which raises (hence a 500) on non-finite
    floats. *)
Definition render (r : result json) : http_response :=
  match r with
  | Ok j => if json_finite j then mkResponse 200 (Some j) else resp_error 500
  | Err _ => resp_error 500
  end.

Definition run_handler (h : M json) : M http_response :=
  fun g => match h g with (r, g') => (Ok (render r), g') end.

(** An HTTP request: method, path, the multipart part [file], the form field
    [text_input] and the raw body. *)
Record request : Type := mkRequest {
  req_method : string;
  req_path : string;
  req_file : option bytes;
  req_form_text_input : option string;
  req_body : option string
}.

(** The endpoints: the three handlers of [main.py] and the documentation
    pages [FastAPI()] registers by default. *)
Inductive endpoint : Type :=
| EP_encode_image | EP_encode_text | EP_compute_similarity
| EP_openapi | EP_swagger_ui_html | EP_swagger_ui_redirect | EP_redoc_html.

(** What a route's parameters are read from. *)
Inductive body_kind : Type :=
  Multipart_file | Json_TextInput | Multipart_file_and_form | No_params.

Record route : Type := mkRoute {
  route_methods : list string;
  route_path : string;
  route_body : body_kind;
  route_endpoint : endpoint
}.

(** The routes in registration order: [FastAPI.setup] adds [openapi_url],
    [docs_url], [swagger_ui_oauth2_redirect_url] and [redoc_url] (GET, with
    the HEAD Starlette adds to every GET route), then the three
    [@app.post] decorators add theirs. *)
Definition routes : list route :=
  [mkRoute ["GET"; "HEAD"] "/openapi.json" No_params EP_openapi;
   mkRoute ["GET"; "HEAD"] "/docs" No_params EP_swagger_ui_html;
   mkRoute ["GET"; "HEAD"] "/docs/oauth2-redirect" No_params EP_swagger_ui_redirect;
   mkRoute ["GET"; "HEAD"] "/redoc" No_params EP_redoc_html;
   mkRoute ["POST"] "/encode_image/" Multipart_file EP_encode_image;
   mkRoute ["POST"] "/encode_text/" Json_TextInput EP_encode_text;
   mkRoute ["POST"] "/compute_similarity/" Multipart_file_and_form EP_compute_similarity].

(** The first route whose path and method both match ([Match.FULL]). *)
Definition find_route (meth path : string) : option route :=
  find (fun r => String.eqb (route_path r) path && existsb (String.eqb meth) (route_methods r))
       routes.

(** Some route has this path, whatever its methods ([Match.PARTIAL] or
    better). *)
Definition path_known (path : string) : bool :=
  existsb (fun r => String.eqb (route_path r) path) routes.

Definition slash : Ascii.ascii := Ascii.ascii_of_nat 47.

(** [path.endswith("/")] *)
Fixpoint ends_with_slash (s : string) : bool :=
  match s with
  | EmptyString => false
  | String c EmptyString => Ascii.eqb c slash
  | String _ s' => ends_with_slash s'
  end.

(** [path.rstrip("/")] *)
Fixpoint rstrip_slash (s : string) : string :=
  match s with
  | EmptyString => EmptyString
  | String c s' =>
      match rstrip_slash s' with
      | EmptyString => if Ascii.eqb c slash then EmptyString else String c EmptyString
      | t => String c t
      end
  end.

(** The path [Router] tries when [redirect_slashes] is on. *)
Definition redirect_path (path : string) : string :=
  if ends_with_slash path then rstrip_slash path else path ++ "/".

(** FastAPI's reading of a JSON body declared as [TextInput]: an absent or
    non-JSON body, a non-object or an object failing validation gives
    [None]. *)
Definition parse_body_TextInput (b : option string) : option TextInput :=
  match option_map json_loads b with
  | Some (Some (JObj fs)) => validate_TextInput fs
  | _ => None
  end.

(** Request validation happens before the handler runs and answers 422.
    The documentation pages answer 200 (their HTML or schema bodies are
    not modelled). *)
Definition endpoint_app (e : endpoint) (rq : request) : M http_response :=
  match e with
  | EP_encode_image =>
      match req_file rq with
      | Some f => run_handler (encode_image f)
      | None => ret (resp_error 422)
      end
  | EP_encode_text =>
      match parse_body_TextInput (req_body rq) with
      | Some ti => run_handler (encode_text ti)
      | None => ret (resp_error 422)
      end
  | EP_compute_similarity =>
      match req_file rq, req_form_text_input rq with
      | Some f, Some t => run_handler (compute_similarity f t)
      | _, _ => ret (resp_error 422)
      end
  | EP_openapi | EP_swagger_ui_html | EP_swagger_ui_redirect | EP_redoc_html =>
      ret (mkResponse 200 None)
  end.

(** Starlette's [Router]: a full match runs its endpoint; a path matched
    with another method is a 405; otherwise, unless the path is [/], the
    path with its trailing slashes stripped (or a slash added) is tried and
    a match there is a 307 redirect to it (the [Location] header is not
    modelled); anything else is a 404. *)
Definition app (rq : request) : M http_response :=
  match find_route (req_method rq) (req_path rq) with
  | Some r => endpoint_app (route_endpoint r) rq
  | None =>
      if path_known (req_path rq) then ret (resp_error 405)
      else if negb (String.eqb (req_path rq) "/") && path_known (redirect_path (req_path rq))
      then ret (resp_error 307)
      else ret (resp_error 404)
  end.

Fixpoint serve (rqs : list request) : M (list http_response) :=
  match rqs with
  | [] => ret []
  | rq :: rqs' =>
      resp <- app rq ;;
      resps <- serve rqs' ;;
      ret (resp :: resps)
  end.

(** ** Process start *)

Variable create_model_and_transforms :
  string -> Model * (Image -> Pixels) * (Image -> Pixels).
Variable get_tokenizer : string -> list string -> Tokens.
Variable cuda_is_available : bool.

Definition MODEL : string := "hf-hub:Marqo/marqo-fashionSigLIP".

(** The module body of [main.py], run once when the process imports it. *)
Definition boot : Globals :=
  match create_model_and_transforms MODEL with
  | (m, _, pv) =>
      mkGlobals m (get_tokenizer MODEL) pv
                (if cuda_is_available then "cuda" else "cpu")
  end.

(** The process: boot once, then answer the requests in order. *)
Definition main (rqs : list request) : list http_response * Globals :=
  let g := boot in
  match serve rqs g with
  | (Ok resps, g') => (resps, g')
  | (Err _, g') => ([], g')
  end.

(** Facts about the pretrained model that the theorems assume: every
    embedding has the same positive dimension and the text encoder returns
    one row per text of the batch when it succeeds. *)
Definition model_ok (g : Globals) : Prop :=
  exists d : nat,
    (0 < d)%nat /\
    (forall p, List.length (model_encode_image (model g) p) = d) /\
    (forall l r, model_encode_text (model g) (tokenizer g l) = Some r ->
                 List.length r = List.length l /\ Forall (fun v => List.length v = d) r).

End Backend.

Arguments Model : clear implicits.
Arguments Globals : clear implicits.

(** A handler step that leaves the globals as they were. *)
Definition preserves {Image Pixels Tokens A : Type} (m : @M Image Pixels Tokens A) : Prop :=
  forall g, snd (m g) = g.

(** ** Reference definitions in exact arithmetic, for the statements *)

(** The unit vector in the direction of [v]. *)
Definition unitR (v : vec) : vec := map (fun x => x / norm v) v.

Fixpoint dotR (a b : vec) : R :=
  match a, b with
  | x :: a', y :: b' => x * y + dotR a' b'
  | _, _ => 0
  end.

Definition cosine (a b : vec) : R := dotR a b / (norm a * norm b).

Definition softmaxR (xs : list R) : list R :=
  let S := sumR (map exp xs) in map (fun x => exp x / S) xs.


(** A JSON list of rows of finite numbers. *)
Definition rows_json (rows : list vec) : json :=
  JArr (map (fun r => JArr (map (fun x => JNum (Fin x)) r)) rows).


(** ** A concrete instance of the libraries, for the witnesses *)

Definition dq : string := String (Ascii.ascii_of_nat 34) EmptyString.

Definition quoted (s : string) : string := dq ++ s ++ dq.

(** The form field [{"text_list": ["red dress"]}] and [{"text_list": []}]. *)
Definition ex_text_input : string :=
  "{" ++ quoted "text_list" ++ ": [" ++ quoted "red dress" ++ "]}".
Definition ex_empty_input : string := "{" ++ quoted "text_list" ++ ": []}".

(** [json.loads] on the inputs used below. *)
Definition ex_json_loads (s : string) : option json :=
  if String.eqb s ex_text_input then Some (JObj [("text_list", JArr [JStr "red dress"])])
  else if String.eqb s ex_empty_input then Some (JObj [("text_list", JArr [])])
  else None.

(** PIL: an empty upload is not an image, anything else opens. *)
Definition ex_Image_open (b : bytes) : option unit :=
  match b with [] => None | _ => Some tt end.

Definition ex_png : bytes := [Byte.x89; Byte.x50; Byte.x4e; Byte.x47].

(** A one-dimensional model whose image encoder returns [img]. *)
Definition ex_globals (img : vec) : Globals unit unit (list string) :=
  mkGlobals (mkModel (fun _ => img) (fun toks => Some (map (fun _ => [1]) toks)))
            (fun l => l) (fun _ => tt) "cpu".

Definition ex_request (path : string) (file : option bytes) (ti body : option string)
  : request :=
  mkRequest "POST" path file ti body.

Definition ex_image_request : request :=
  ex_request "/encode_image/" (Some ex_png) None None.
Definition ex_similarity_request : request :=
  ex_request "/compute_similarity/" (Some ex_png) (Some ex_text_input) None.
Definition ex_empty_request : request :=
  ex_request "/compute_similarity/" (Some ex_png) (Some ex_empty_input) None.

(** ** CORS: Starlette's [CORSMiddleware] with the arguments of [main.py]
    lines 14-20 *)

Definition allow_origins : list string := ["http://localhost:5173"].
Definition allow_credentials : bool := true.

(** [allow_methods=["*"]] expands to Starlette's [ALL_METHODS] (current
    Starlette lists QUERY too);
    [allow_headers=["*"]] allows every requested header. *)
Definition ALL_METHODS : list string :=
  ["DELETE"; "GET"; "HEAD"; "OPTIONS"; "PATCH"; "POST"; "PUT"; "QUERY"].

Definition is_allowed_origin (o : string) : bool :=
  existsb (String.eqb o) allow_origins.

(** A request as the middleware sees it: the routed request and its
    [Origin], [Access-Control-Request-Method] and
    [Access-Control-Request-Headers] headers. *)
Record cors_request : Type := mkCorsRequest {
  cors_inner : request;
  origin : option string;
  access_control_request_method : option string;
  access_control_request_headers : option string
}.

(** A response with the CORS headers the middleware sets (the plain-text
    body of a preflight answer is not modelled). *)
Record cors_response : Type := mkCorsResponse {
  cors_resp : http_response;
  allow_origin_header : option string;
  allow_credentials_header : bool;
  allow_headers_header : option string
}.

(** [preflight_response]: the origin must be allowed and the requested
    method be one of [ALL_METHODS]; any failure is a 400. *)
Definition preflight_response (o meth : string) (hdrs : option string) : cors_response :=
  let failures :=
    ((if is_allowed_origin o then [] else ["origin"]) ++
     (if existsb (String.eqb meth) ALL_METHODS then [] else ["method"]))%list in
  mkCorsResponse
    (mkResponse (match failures with [] => 200 | _ => 400 end)%Z None)
    (if is_allowed_origin o then Some o else None)
    allow_credentials hdrs.

(** [simple_response]: the application's answer, with the credentials
    header and, for an allowed origin, [Access-Control-Allow-Origin]. *)
Definition simple_response (o : string) (r : http_response) : cors_response :=
  mkCorsResponse r (if is_allowed_origin o then Some o else None) allow_credentials None.

Definition plain_response (r : http_response) : cors_response :=
  mkCorsResponse r None false None.

(** A 500 of [app] stands for an exception escaping the handler: the
    exception middleware inside CORS does not catch it, so it reaches
    Starlette's outermost [ServerErrorMiddleware], whose 500 carries no
    CORS header.  Any other answer passes through [simple_response]. *)
Definition cors_decorate (o : string) (r : http_response) : cors_response :=
  if Z.eqb (status r) 500 then plain_response r else simple_response o r.

Definition res_map {A B : Type} (f : A -> B) (r : result A) : result B :=
  match r with Ok a => Ok (f a) | Err e => Err e end.

(** The middleware around [app]: no [Origin] passes through; an [OPTIONS]
    request with [Access-Control-Request-Method] is a preflight, answered
    without reaching the routes; anything else is routed and decorated. *)
Definition cors_app {Image Pixels Tokens : Type} (json_loads : string -> option json)
    (Image_open : bytes -> option Image) (crq : cors_request)
    : @M Image Pixels Tokens cors_response :=
  fun g =>
  match origin crq with
  | None =>
      match app json_loads Image_open (cors_inner crq) g with
      | (r, g') => (res_map plain_response r, g')
      end
  | Some o =>
      match String.eqb (req_method (cors_inner crq)) "OPTIONS",
            access_control_request_method crq with
      | true, Some meth =>
          (Ok (preflight_response o meth (access_control_request_headers crq)), g)
      | _, _ =>
          match app json_loads Image_open (cors_inner crq) g with
          | (r, g') => (res_map (cors_decorate o) r, g')
          end
      end
  end.

(** The globals with the image encoder's outputs multiplied by [ci] and
    the text encoder's by [ct]. *)
Definition scale_model {Image Pixels Tokens : Type} (ci ct : R)
    (g : Globals Image Pixels Tokens) : Globals Image Pixels Tokens :=
  mkGlobals
    (mkModel (fun p => map (Rmult ci) (model_encode_image (model g) p))
             (fun t => option_map (map (map (Rmult ct))) (model_encode_text (model g) t)))
    (tokenizer g) (preprocess_val g) (device g).

(** [json.loads] on two more inputs: a JSON list and an empty object. *)
Definition ex_json_loads_x (s : string) : option json :=
  if String.eqb s "[1]" then Some (JArr [JNum (Fin 1)])
  else if String.eqb s "{}" then Some (JObj [])
  else ex_json_loads s.

(** A preflight from a foreign origin and a cross-origin upload from the
    front end. *)
Definition ex_preflight : cors_request :=
  mkCorsRequest (mkRequest "OPTIONS" "/encode_image/" None None None)
                (Some "http://example.org") (Some "POST") None.
Definition ex_cors_upload : cors_request :=
  mkCorsRequest ex_image_request (Some "http://localhost:5173") None None.

(** ** Lemmas on the tensor arithmetic *)

Lemma sumsq_nonneg (v : vec) : 0 <= sumsq v.
Proof.
  induction v as [|x v IH]; simpl; [lra|].
  pose proof (Rle_0_sqr x) as Hx; unfold Rsqr in Hx; lra.
Qed.

Lemma sumsq_zero (v : vec) : sumsq v = 0 -> Forall (fun x => x = 0) v.
Proof.
  induction v as [|x v IH]; simpl; intros H; constructor.
  - pose proof (sumsq_nonneg v). pose proof (Rle_0_sqr x) as Hx; unfold Rsqr in Hx.
    destruct (Rmult_integral x x); lra.
  - apply IH. pose proof (sumsq_nonneg v). pose proof (Rle_0_sqr x) as Hx;
    unfold Rsqr in Hx; lra.
Qed.

Lemma norm_sq (v : vec) : norm v * norm v = sumsq v.
Proof. unfold norm. apply sqrt_sqrt, sumsq_nonneg. Qed.

Lemma normalize_fin (v : vec) :
  norm v <> 0 -> normalize v = map Fin (unitR v).
Proof.
  intros Hn. unfold normalize, unitR. rewrite map_map.
  apply map_ext. intros x. simpl.
  destruct (Req_dec_T (norm v) 0); [contradiction|reflexivity].
Qed.

Lemma normalize_zero (v : vec) :
  norm v = 0 -> normalize v = map (fun _ => NaN) v.
Proof.
  intros Hn.
  assert (Hz : Forall (fun x => x = 0) v).
  { apply sumsq_zero. rewrite <- norm_sq, Hn. ring. }
  unfold normalize. rewrite Hn. apply map_ext_in.
  intros x Hin. rewrite Forall_forall in Hz. rewrite (Hz x Hin).
  simpl. destruct (Req_dec_T 0 0); [reflexivity|contradiction].
Qed.

Lemma sumsq_scale (c : R) (v : vec) :
  sumsq (map (fun x => x / c) v) = sumsq v / (c * c).
Proof.
  induction v as [|x v IH]; simpl.
  - unfold Rdiv. ring.
  - rewrite IH. unfold Rdiv. rewrite Rinv_mult. ring.
Qed.

Lemma sumsq_unitR (v : vec) : norm v <> 0 -> sumsq (unitR v) = 1.
Proof.
  intros Hn. unfold unitR. rewrite sumsq_scale, norm_sq.
  apply Rdiv_diag. rewrite <- norm_sq. apply Rmult_integral_contrapositive; auto.
Qed.

Lemma fdot_fin (a b : vec) :
  List.length a = List.length b ->
  fdot (map Fin a) (map Fin b) = Some (Fin (dotR a b)).
Proof.
  revert b; induction a as [|x a IH]; intros [|y b] Hl; simpl in *;
    try discriminate; [reflexivity|].
  rewrite IH by lia. reflexivity.
Qed.

Lemma fdot_some (a b : list flt) :
  List.length a = List.length b -> exists s, fdot a b = Some s.
Proof.
  revert b; induction a as [|x a IH]; intros [|y b] Hl; simpl in *;
    try discriminate; [eauto|].
  destruct (IH b) as [s Hs]; [lia|]. rewrite Hs. eauto.
Qed.

Lemma fdot_nan_l {A : Type} (a : list A) (b : list flt) :
  List.length a = List.length b -> a <> [] ->
  fdot (map (fun _ => NaN) a) b = Some NaN.
Proof.
  destruct a as [|x a], b as [|y b]; simpl; intros Hl Hne;
    try discriminate; [contradiction|].
  destruct (fdot_some (map (fun _ => NaN) a) b) as [s Hs].
  { rewrite length_map. lia. }
  rewrite Hs. reflexivity.
Qed.

Lemma fdot_nan_r (a : list flt) (b : vec) :
  List.length a = List.length b -> b <> [] ->
  fdot a (map (fun _ => NaN) b) = Some NaN.
Proof.
  destruct a as [|x a], b as [|y b]; simpl; intros Hl Hne;
    try discriminate; [contradiction|].
  destruct (fdot_some a (map (fun _ => NaN) b)) as [s Hs].
  { rewrite length_map. lia. }
  rewrite Hs. destruct x; reflexivity.
Qed.

Lemma dotR_scale (c : R) (a b : vec) :
  dotR (map (Rmult c) a) b = c * dotR a b.
Proof.
  revert b; induction a as [|x a IH]; intros [|y b]; simpl; try ring.
  rewrite IH. ring.
Qed.

Lemma scale_fin (c : R) (a : vec) :
  map (fmul (Fin c)) (map Fin a) = map Fin (map (Rmult c) a).
Proof. rewrite !map_map. reflexivity. Qed.

Lemma scale_nan (c : R) (a : vec) :
  map (fmul (Fin c)) (map (fun _ => NaN) a) = map (fun _ => NaN) a.
Proof. rewrite map_map. reflexivity. Qed.

Lemma sumR_div (S : R) (xs : list R) :
  sumR (map (fun x => exp x / S) xs) = sumR (map exp xs) / S.
Proof.
  induction xs as [|x xs IH]; simpl; [unfold Rdiv; ring|].
  rewrite IH. unfold Rdiv. ring.
Qed.

Lemma sumR_exp_pos (xs : list R) : xs <> [] -> 0 < sumR (map exp xs).
Proof.
  induction xs as [|x xs IH]; simpl; intros H; [contradiction|].
  pose proof (exp_pos x).
  destruct xs as [|y ys]; simpl in *; [lra|].
  specialize (IH ltac:(discriminate)). lra.
Qed.

Lemma softmaxR_sum (xs : list R) : xs <> [] -> sumR (softmaxR xs) = 1.
Proof.
  intros H. unfold softmaxR. rewrite sumR_div.
  apply Rdiv_diag. pose proof (sumR_exp_pos xs H). lra.
Qed.

Lemma softmaxR_pos (xs : list R) : Forall (fun p => 0 < p) (softmaxR xs).
Proof.
  destruct xs as [|x xs]; [constructor|].
  pose proof (sumR_exp_pos (x :: xs) ltac:(discriminate)) as HS.
  unfold softmaxR. apply Forall_forall. intros p Hp.
  apply in_map_iff in Hp. destruct Hp as [y [<- _]].
  apply Rdiv_lt_0_compat; [apply exp_pos|exact HS].
Qed.

Lemma softmax_fin (xs : list R) :
  xs <> [] -> softmax (map Fin xs) = map Fin (softmaxR xs).
Proof.
  intros H. unfold softmax, softmaxR.
  replace (existsb (fun x => match x with NaN | Inf false => true | _ => false end)
             (map Fin xs)) with false
    by (clear H; induction xs; simpl; auto).
  replace (existsb is_fin (map Fin xs)) with true
    by (destruct xs; [contradiction|reflexivity]).
  rewrite !map_map. reflexivity.
Qed.

Lemma softmax_nan (row : list flt) :
  In NaN row -> softmax row = map (fun _ => NaN) row.
Proof.
  intros H. unfold softmax.
  replace (existsb (fun x => match x with NaN | Inf false => true | _ => false end) row)
    with true; [reflexivity|].
  symmetry. apply existsb_exists. exists NaN. auto.
Qed.

Lemma logits_fin (a : vec) (txts : list vec) :
  a <> [] -> Forall (fun t => List.length t = List.length a) txts ->
  (Forall (fun t => norm t <> 0) txts /\
   omap (fdot (map Fin a)) (map normalize txts) =
     Some (map (fun t => Fin (dotR a (unitR t))) txts)) \/
  (exists row, omap (fdot (map Fin a)) (map normalize txts) = Some row /\ In NaN row).
Proof.
  intros Ha Hl. induction Hl as [|t txts Ht Hl IH]; simpl.
  - left. split; [constructor|reflexivity].
  - destruct (Req_dec_T (norm t) 0) as [Hz|Hz].
    + rewrite (normalize_zero t Hz), fdot_nan_r;
        [| rewrite length_map; auto | intros ->; destruct a; simpl in *; congruence].
      right. destruct IH as [[_ ->]|[row [-> _]]]; eexists; split; eauto; simpl; auto.
    + rewrite (normalize_fin t Hz), fdot_fin by (unfold unitR; rewrite length_map; auto).
      destruct IH as [[Hn ->]|[row [-> Hin]]].
      * left. split; [constructor; auto|reflexivity].
      * right. eexists; split; [reflexivity|simpl; auto].
Qed.

Lemma logits_nan (a : vec) (txts : list vec) :
  a <> [] -> Forall (fun t => List.length t = List.length a) txts ->
  omap (fdot (map (fun _ => NaN) a)) (map normalize txts) = Some (map (fun _ => NaN) txts).
Proof.
  intros Ha Hl. induction Hl as [|t txts Ht Hl IH]; simpl; [reflexivity|].
  rewrite fdot_nan_l, IH; auto.
  unfold normalize. rewrite !length_map. auto.
Qed.

Lemma finite_row_no_nan (row : list flt) :
  json_finite (tolist_row row) = true -> ~ In NaN row.
Proof.
  unfold tolist_row. simpl. intros H Hin.
  rewrite forallb_forall in H.
  specialize (H (JNum NaN) (in_map _ _ _ Hin)). discriminate.
Qed.

Lemma nan_row_not_finite (v : list R) :
  v <> [] -> json_finite (JArr (map JNum (map (fun _ => NaN) v))) = false.
Proof. destruct v; [contradiction|reflexivity]. Qed.

Lemma normalize_rows (txts : list vec) :
  Forall (fun t => norm t <> 0) txts ->
  map normalize txts = map (fun v => map Fin v) (map unitR txts).
Proof.
  induction 1 as [|t txts Ht _ IH]; simpl; [reflexivity|].
  rewrite IH, (normalize_fin t Ht). reflexivity.
Qed.

Lemma matmul_T_single (x : list flt) (n : list (list flt)) :
  matmul_T [x] n = option_map (fun y => [y]) (omap (fdot x) n).
Proof. unfold matmul_T. simpl. destruct (omap (fdot x) n); reflexivity. Qed.

Lemma probs_finite (row : list flt) (labels : json) :
  json_finite (JObj [("probabilities", tolist_row row); ("labels", labels)]) = true ->
  json_finite (tolist_row row) = true.
Proof.
  simpl. destruct (forallb json_finite (map JNum row)); simpl; auto.
Qed.

Lemma tolist_fin (rows : list vec) :
  tolist (map (fun v => map Fin v) rows) = rows_json rows.
Proof.
  unfold tolist, rows_json. rewrite map_map. f_equal. apply map_ext.
  intros r. rewrite map_map. reflexivity.
Qed.

Lemma dotR_unit (a b : vec) :
  dotR (unitR a) (unitR b) = cosine a b.
Proof.
  unfold cosine, unitR. generalize (norm a) (norm b). intros na nb.
  revert b; induction a as [|x a IH]; intros [|y b]; simpl; unfold Rdiv; try ring.
  rewrite IH. unfold Rdiv. rewrite Rinv_mult. ring.
Qed.

Lemma omap_str_of (l : list json) (ss : list string) :
  omap str_of l = Some ss -> l = map JStr ss.
Proof.
  revert ss; induction l as [|x l IH]; intros ss; simpl.
  - intros H; inversion H; reflexivity.
  - destruct x; simpl; try discriminate.
    destruct (omap str_of l) eqn:E; intros H; inversion H; subst.
    simpl. f_equal. auto.
Qed.

Lemma validate_TextInput_labels (fs : list (string * json)) (tl : list string) :
  validate_TextInput fs = Some (mkTextInput tl) ->
  lookup "text_list" fs = Some (JArr (map JStr tl)).
Proof.
  unfold validate_TextInput.
  destruct (lookup "text_list" fs) as [[]|]; try discriminate.
  destruct (omap str_of l) eqn:E; intros H; inversion H; subst.
  rewrite (omap_str_of _ _ E). reflexivity.
Qed.

Lemma omap_length {A B : Type} (f : A -> option B) (l : list A) (r : list B) :
  omap f l = Some r -> List.length r = List.length l.
Proof.
  revert r; induction l as [|x l IH]; intros r; simpl.
  - intros H; inversion H; reflexivity.
  - destruct (f x), (omap f l) eqn:E; intros H; inversion H; subst.
    simpl. f_equal. auto.
Qed.

Lemma map_const_length {A B C : Type} (c : C) (l1 : list A) (l2 : list B) :
  List.length l1 = List.length l2 -> map (fun _ => c) l1 = map (fun _ => c) l2.
Proof.
  revert l2; induction l1 as [|x l1 IH]; intros [|y l2] H; simpl in *;
    try discriminate; [reflexivity|].
  rewrite (IH l2) by lia. reflexivity.
Qed.

(** ** Evaluation of the handlers and of the routing *)

Section Handlers.

Context {Image Pixels Tokens : Type}.
Variable json_loads : string -> option json.
Variable Image_open : bytes -> option Image.

Local Abbreviation Glob := (Globals Image Pixels Tokens).

Lemma render_200 (r : result json) (j : json) :
  render r = mkResponse 200 (Some j) -> r = Ok j /\ json_finite j = true.
Proof.
  destruct r as [j'|e]; simpl; [|discriminate].
  destruct (json_finite j') eqn:E; intros H; inversion H; subst; auto.
Qed.

Lemma run_handler_200 (h : M json) (g : Glob) (j : json) :
  fst (run_handler h g) = Ok (mkResponse 200 (Some j)) ->
  fst (h g) = Ok j /\ json_finite j = true.
Proof.
  unfold run_handler. destruct (h g) as [r g']. simpl. intros H.
  apply render_200. congruence.
Qed.

Lemma app_encode_image (rq : request) (g : Glob) :
  req_method rq = "POST" -> req_path rq = "/encode_image/" ->
  app json_loads Image_open rq g =
    match req_file rq with
    | Some f => run_handler (encode_image Image_open f) g
    | None => (Ok (resp_error 422), g)
    end.
Proof.
  intros Hm Hp. unfold app, find_route. rewrite Hm, Hp. simpl.
  destruct (req_file rq); reflexivity.
Qed.

Lemma app_encode_text (rq : request) (g : Glob) :
  req_method rq = "POST" -> req_path rq = "/encode_text/" ->
  app json_loads Image_open rq g =
    match parse_body_TextInput json_loads (req_body rq) with
    | Some ti => run_handler (encode_text ti) g
    | None => (Ok (resp_error 422), g)
    end.
Proof.
  intros Hm Hp. unfold app, find_route. rewrite Hm, Hp. simpl.
  destruct (parse_body_TextInput json_loads (req_body rq)); reflexivity.
Qed.

Lemma app_compute_similarity (rq : request) (g : Glob) :
  req_method rq = "POST" -> req_path rq = "/compute_similarity/" ->
  app json_loads Image_open rq g =
    match req_file rq, req_form_text_input rq with
    | Some f, Some t => run_handler (compute_similarity json_loads Image_open f t) g
    | _, _ => (Ok (resp_error 422), g)
    end.
Proof.
  intros Hm Hp. unfold app, find_route. rewrite Hm, Hp. simpl.
  destruct (req_file rq), (req_form_text_input rq); reflexivity.
Qed.

Lemma encode_image_eval (file : bytes) (g : Glob) :
  encode_image Image_open file g =
    match Image_open file with
    | Some image =>
        (Ok (JObj [("features",
               tolist [normalize (model_encode_image (model g) (preprocess_val g image))])]), g)
    | None => (Err UnidentifiedImageError, g)
    end.
Proof.
  unfold encode_image, bind, get, of_option, ret, raise.
  destruct (Image_open file); reflexivity.
Qed.

Lemma encode_text_eval (ti : TextInput) (g : Glob) :
  encode_text ti g =
    match model_encode_text (model g) (tokenizer g (text_list ti)) with
    | Some txts => (Ok (JObj [("features", tolist (map normalize txts))]), g)
    | None => (Err RuntimeError, g)
    end.
Proof.
  unfold encode_text, bind, get, of_option, ret, raise.
  destruct (model_encode_text (model g) (tokenizer g (text_list ti))); reflexivity.
Qed.

Lemma TextInput_kwargs_ok (d : json) (t : TextInput) :
  TextInput_kwargs d = Ok t -> exists fs, d = JObj fs /\ validate_TextInput fs = Some t.
Proof.
  destruct d; simpl; try discriminate.
  destruct (validate_TextInput fields) eqn:E; intros H; inversion H; subst; eauto.
Qed.

Lemma compute_similarity_logits (file : bytes) (ti : string) (g : Glob)
    (fs : list (string * json)) (tl : list string) (image : Image) (txts : list vec)
    (logits : list (list flt)) :
  json_loads ti = Some (JObj fs) -> validate_TextInput fs = Some (mkTextInput tl) ->
  Image_open file = Some image ->
  model_encode_text (model g) (tokenizer g tl) = Some txts ->
  matmul_T (fscale 100 [normalize (model_encode_image (model g) (preprocess_val g image))])
           (map normalize txts) = Some logits ->
  compute_similarity json_loads Image_open file ti g =
    match nth_error (map softmax logits) 0 with
    | Some row0 =>
        (Ok (JObj [("probabilities", tolist_row row0); ("labels", JArr (map JStr tl))]), g)
    | None => (Err IndexError, g)
    end.
Proof.
  intros H1 H2 H3 H4 H5.
  unfold compute_similarity, bind, get, of_option, of_result, ret, raise.
  rewrite H1. cbn [TextInput_kwargs]. rewrite H2, H3. cbn [text_list].
  rewrite H4. cbn [map]. rewrite H5. destruct (nth_error _ 0); reflexivity.
Qed.

Lemma compute_similarity_ok (file : bytes) (ti : string) (g g' : Glob) (j : json) :
  compute_similarity json_loads Image_open file ti g = (Ok j, g') ->
  g' = g /\
  exists fs tl image txts logits row0,
    json_loads ti = Some (JObj fs) /\
    validate_TextInput fs = Some (mkTextInput tl) /\
    Image_open file = Some image /\
    model_encode_text (model g) (tokenizer g tl) = Some txts /\
    matmul_T (fscale 100 [normalize (model_encode_image (model g) (preprocess_val g image))])
             (map normalize txts) = Some logits /\
    nth_error (map softmax logits) 0 = Some row0 /\
    j = JObj [("probabilities", tolist_row row0); ("labels", JArr (map JStr tl))].
Proof.
  unfold compute_similarity, bind, get, of_option, of_result, ret, raise.
  intros H.
  destruct (json_loads ti) as [d|] eqn:E1; [|discriminate].
  destruct (TextInput_kwargs d) as [[tl]|e] eqn:E2; [|discriminate].
  destruct (Image_open file) as [image|] eqn:E3; [|discriminate].
  destruct (model_encode_text _ _) as [txts|] eqn:E4; [|discriminate].
  destruct (matmul_T _ _) as [logits|] eqn:E5; [|discriminate].
  destruct (nth_error _ 0) as [row0|] eqn:E6; [|discriminate].
  inversion H; subst. split; [reflexivity|].
  destruct (TextInput_kwargs_ok _ _ E2) as [fs [-> Hv]].
  exists fs, tl, image, txts, logits, row0. simpl in *. repeat split; auto.
Qed.

Lemma encode_image_success (rq : request) (g : Glob) (j : json) :
  model_ok g -> req_method rq = "POST" -> req_path rq = "/encode_image/" ->
  fst (app json_loads Image_open rq g) = Ok (mkResponse 200 (Some j)) ->
  exists file image,
    req_file rq = Some file /\ Image_open file = Some image /\
    norm (model_encode_image (model g) (preprocess_val g image)) <> 0 /\
    j = JObj [("features",
               rows_json [unitR (model_encode_image (model g) (preprocess_val g image))])].
Proof.
  intros [d [Hd [Hi _]]] Hm Hp. rewrite app_encode_image by assumption.
  destruct (req_file rq) as [f|]; [|simpl; discriminate].
  intros H. apply run_handler_200 in H as [Hj Hfin].
  rewrite encode_image_eval in Hj.
  destruct (Image_open f) as [image|] eqn:Eimg; simpl in Hj; [|discriminate].
  injection Hj as <-. exists f, image. do 2 (split; [auto|]).
  specialize (Hi (preprocess_val g image)).
  remember (model_encode_image (model g) (preprocess_val g image)) as v eqn:Ev.
  destruct (Req_dec_T (norm v) 0) as [Hz|Hz].
  - rewrite (normalize_zero v Hz) in Hfin.
    destruct v as [|x v']; simpl in Hi; [lia|discriminate].
  - split; [exact Hz|]. rewrite (normalize_fin v Hz).
    rewrite <- (tolist_fin [unitR v]). reflexivity.
Qed.

Lemma encode_text_success (rq : request) (g : Glob) (j : json) :
  model_ok g -> req_method rq = "POST" -> req_path rq = "/encode_text/" ->
  fst (app json_loads Image_open rq g) = Ok (mkResponse 200 (Some j)) ->
  exists ti txts,
    parse_body_TextInput json_loads (req_body rq) = Some ti /\
    model_encode_text (model g) (tokenizer g (text_list ti)) = Some txts /\
    Forall (fun t => norm t <> 0) txts /\
    j = JObj [("features", rows_json (map unitR txts))].
Proof.
  intros [d [Hd [_ Ht]]] Hm Hp. rewrite app_encode_text by assumption.
  destruct (parse_body_TextInput json_loads (req_body rq)) as [ti|];
    [|simpl; discriminate].
  intros H. apply run_handler_200 in H as [Hj Hfin].
  rewrite encode_text_eval in Hj.
  destruct (model_encode_text _ _) as [txts|] eqn:Et; simpl in Hj; [|discriminate].
  injection Hj as <-. exists ti, txts. do 2 (split; [auto|]).
  destruct (Ht _ _ Et) as [_ Hlen]. clear Et.
  assert (Hn : Forall (fun t => norm t <> 0) txts).
  { simpl in Hfin. rewrite andb_true_r in Hfin. unfold tolist in Hfin.
    simpl in Hfin. rewrite forallb_forall in Hfin.
    rewrite Forall_forall in Hlen |- *. intros t Hin Hz.
    specialize (Hlen t Hin). specialize (Hfin _ (in_map _ _ _ (in_map _ _ _ Hin))).
    rewrite (normalize_zero t Hz) in Hfin.
    destruct t as [|x t']; simpl in Hlen; [lia|discriminate]. }
  split; [exact Hn|]. rewrite (normalize_rows txts Hn), tolist_fin. reflexivity.
Qed.

Lemma compute_similarity_success (rq : request) (g : Glob) (j : json) :
  model_ok g -> req_method rq = "POST" -> req_path rq = "/compute_similarity/" ->
  fst (app json_loads Image_open rq g) = Ok (mkResponse 200 (Some j)) ->
  exists file ti fs tl image txts,
    req_file rq = Some file /\ req_form_text_input rq = Some ti /\
    json_loads ti = Some (JObj fs) /\ validate_TextInput fs = Some (mkTextInput tl) /\
    Image_open file = Some image /\
    model_encode_text (model g) (tokenizer g tl) = Some txts /\
    List.length txts = List.length tl /\
    Forall (fun t => norm t <> 0) txts /\
    (txts <> [] -> norm (model_encode_image (model g) (preprocess_val g image)) <> 0) /\
    j = JObj [("probabilities",
               JArr (map (fun p => JNum (Fin p))
                 (softmaxR (map (fun t =>
                    100 * dotR (unitR (model_encode_image (model g) (preprocess_val g image)))
                               (unitR t)) txts))));
              ("labels", JArr (map JStr tl))].
Proof.
  intros [d [Hd [Hi Ht]]] Hm Hp. rewrite app_compute_similarity by assumption.
  destruct (req_file rq) as [f|] eqn:Ef; [|simpl; discriminate].
  destruct (req_form_text_input rq) as [ti|] eqn:Eti; [|simpl; discriminate].
  intros H. apply run_handler_200 in H as [Hj Hfin].
  destruct (compute_similarity json_loads Image_open f ti g) as [r g'] eqn:Ec.
  simpl in Hj. subst r.
  apply compute_similarity_ok in Ec
    as [_ [fs [tl [image [txts [logits [row0 [E1 [E2 [E3 [E4 [E5 [E6 ->]]]]]]]]]]]]].
  apply probs_finite in Hfin.
  destruct (Ht _ _ E4) as [Hlt Hlen].
  specialize (Hi (preprocess_val g image)).
  exists f, ti, fs, tl, image, txts.
  remember (model_encode_image (model g) (preprocess_val g image)) as img eqn:Eimg.
  do 7 (split; [auto|]).
  assert (Hlen' : Forall (fun t => List.length t = List.length img) txts)
    by (rewrite Hi; exact Hlen).
  assert (Hne : img <> []) by (intros ->; simpl in Hi; lia).
  destruct txts as [|t0 txts0] eqn:Etx.
  - unfold matmul_T in E5. simpl in E5. injection E5 as <-.
    simpl in E6. injection E6 as <-.
    split; [constructor|]. split; [contradiction|reflexivity].
  - rewrite <- Etx in *. assert (Htne : txts <> []) by (rewrite Etx; discriminate).
    clear Etx t0 txts0.
    destruct (Req_dec_T (norm img) 0) as [Hz|Hz].
    + exfalso. rewrite (normalize_zero img Hz) in E5.
      unfold fscale in E5. simpl map in E5. rewrite scale_nan, matmul_T_single in E5.
      rewrite (logits_nan img txts Hne Hlen') in E5. simpl in E5. injection E5 as <-.
      simpl in E6. injection E6 as <-.
      apply (finite_row_no_nan _ Hfin). rewrite softmax_nan.
      * destruct txts; [contradiction|left; reflexivity].
      * destruct txts; [contradiction|left; reflexivity].
    + rewrite (normalize_fin img Hz) in E5.
      unfold fscale in E5. simpl map in E5. rewrite scale_fin, matmul_T_single in E5.
      assert (Ha : map (Rmult 100) (unitR img) <> [])
        by (destruct img; [contradiction|discriminate]).
      assert (Hl2 : Forall (fun t => List.length t = List.length (map (Rmult 100) (unitR img))) txts)
        by (unfold unitR; rewrite !length_map; exact Hlen').
      destruct (logits_fin _ txts Ha Hl2) as [[Hn Hom]|[row [Hom Hin]]];
        rewrite Hom in E5; simpl in E5; injection E5 as <-; simpl in E6; injection E6 as <-.
      * split; [exact Hn|]. split; [intros _; exact Hz|].
        replace (map (fun t : vec => Fin (dotR (map (Rmult 100) (unitR img)) (unitR t))) txts)
          with (map Fin (map (fun t => 100 * dotR (unitR img) (unitR t)) txts))
          by (rewrite map_map; apply map_ext; intros t; rewrite dotR_scale; reflexivity).
        rewrite softmax_fin by (destruct txts; [contradiction|discriminate]).
        unfold tolist_row. rewrite map_map. reflexivity.
      * exfalso. apply (finite_row_no_nan _ Hfin). rewrite (softmax_nan row Hin).
        destruct row; [contradiction|left; reflexivity].
Qed.

End Handlers.

Lemma norm_unitR (v : vec) : norm v <> 0 -> norm (unitR v) = 1.
Proof. intros H. unfold norm at 1. rewrite sumsq_unitR by exact H. apply sqrt_1. Qed.



(** ** Runs of the concrete instance *)

Lemma ex_model_ok (img : vec) : List.length img = 1%nat -> model_ok (ex_globals img).
Proof.
  intros Hl. exists 1%nat. split; [lia|]. split; [intros; exact Hl|].
  intros l r H. simpl in H. injection H as <-. rewrite length_map.
  split; [reflexivity|]. apply Forall_forall. intros v Hv.
  apply in_map_iff in Hv. destruct Hv as [x [<- _]]. reflexivity.
Qed.

Lemma ex_normalize_one : normalize [1] = [Fin 1].
Proof.
  assert (Hn : norm [1] = 1) by (unfold norm; simpl; rewrite Rmult_1_r, Rplus_0_r; apply sqrt_1).
  rewrite normalize_fin by lra. unfold unitR. simpl. rewrite Hn. f_equal. f_equal. field.
Qed.

Lemma ex_encode_image_run :
  fst (app ex_json_loads ex_Image_open (ex_request "/encode_image/" (Some ex_png) None None)
         (ex_globals [1]))
  = Ok (mkResponse 200 (Some (JObj [("features", JArr [JArr [JNum (Fin 1)]])]))).
Proof.
  rewrite app_encode_image by reflexivity. simpl req_file. unfold run_handler.
  rewrite encode_image_eval. cbn -[normalize]. rewrite ex_normalize_one. reflexivity.
Qed.

Lemma ex_encode_text_run :
  fst (app ex_json_loads ex_Image_open
         (ex_request "/encode_text/" None None (Some ex_text_input)) (ex_globals [1]))
  = Ok (mkResponse 200 (Some (JObj [("features", JArr [JArr [JNum (Fin 1)]])]))).
Proof.
  rewrite app_encode_text by reflexivity. unfold run_handler.
  assert (Hp : parse_body_TextInput ex_json_loads (req_body
                 (ex_request "/encode_text/" None None (Some ex_text_input)))
               = Some (mkTextInput ["red dress"])) by reflexivity.
  rewrite Hp, encode_text_eval. cbn -[normalize]. rewrite ex_normalize_one. reflexivity.
Qed.

Lemma ex_similarity_run :
  exists p, fst (app ex_json_loads ex_Image_open
         (ex_request "/compute_similarity/" (Some ex_png) (Some ex_text_input) None)
         (ex_globals [1]))
  = Ok (mkResponse 200 (Some (JObj [("probabilities", JArr [JNum (Fin p)]);
                                    ("labels", JArr [JStr "red dress"])]))).
Proof.
  rewrite app_compute_similarity by reflexivity. cbn [ex_request req_file req_form_text_input].
  unfold run_handler, compute_similarity, bind, get, of_option, of_result, ret.
  cbn -[normalize]. rewrite ex_normalize_one. cbn. eexists. reflexivity.
Qed.

Lemma ex_similarity_empty_run :
  fst (app ex_json_loads ex_Image_open
         (ex_request "/compute_similarity/" (Some ex_png) (Some ex_empty_input) None)
         (ex_globals [1]))
  = Ok (mkResponse 200 (Some (JObj [("probabilities", JArr []); ("labels", JArr [])]))).
Proof.
  rewrite app_compute_similarity by reflexivity. cbn [ex_request req_file req_form_text_input].
  unfold run_handler, compute_similarity, bind, get, of_option, of_result, ret.
  cbn -[normalize]. reflexivity.
Qed.

(** ** Frame lemmas: the handlers only read the globals *)

Section Frame.

Context {Image Pixels Tokens : Type}.
Variable json_loads : string -> option json.
Variable Image_open : bytes -> option Image.

Local Abbreviation pres := (@preserves Image Pixels Tokens _).

Lemma ret_preserves {A : Type} (a : A) : pres (ret a).
Proof. intros g. reflexivity. Qed.

Lemma get_preserves : pres get.
Proof. intros g. reflexivity. Qed.

Lemma raise_preserves {A : Type} (e : exn) : pres (@raise _ _ _ A e).
Proof. intros g. reflexivity. Qed.

Lemma of_option_preserves {A : Type} (e : exn) (o : option A) : pres (of_option e o).
Proof. destruct o; intros g; reflexivity. Qed.

Lemma of_result_preserves {A : Type} (r : result A) : pres (of_result r).
Proof. destruct r; intros g; reflexivity. Qed.

Lemma bind_preserves {A B : Type} (m : M A) (k : A -> M B) :
  pres m -> (forall a, pres (k a)) -> pres (bind m k).
Proof.
  intros Hm Hk g. unfold bind. specialize (Hm g).
  destruct (m g) as [[a|e] g'] eqn:E; simpl in *; subst; [apply Hk|reflexivity].
Qed.

Lemma run_handler_preserves (h : M json) : pres h -> pres (run_handler h).
Proof. intros H g. unfold run_handler. specialize (H g). destruct (h g); simpl in *; auto. Qed.

Create HintDb frame.
#[local] Hint Resolve ret_preserves get_preserves raise_preserves of_option_preserves
  of_result_preserves run_handler_preserves : frame.

Ltac frame :=
  repeat (apply bind_preserves; [auto with frame|intros]); auto with frame.

Lemma encode_image_preserves (f : bytes) : pres (encode_image Image_open f).
Proof. unfold encode_image. frame. Qed.

Lemma encode_text_preserves (ti : TextInput) : pres (encode_text ti).
Proof. unfold encode_text. frame. Qed.

Lemma compute_similarity_preserves (f : bytes) (t : string) :
  pres (compute_similarity json_loads Image_open f t).
Proof. unfold compute_similarity. frame. Qed.

Lemma app_preserves (rq : request) : pres (app json_loads Image_open rq).
Proof.
  unfold app. destruct (find_route _ _) as [r|].
  - destruct (route_endpoint r); simpl.
    + destruct (req_file rq); auto using run_handler_preserves, encode_image_preserves
        with frame.
    + destruct (parse_body_TextInput _ _); auto using run_handler_preserves,
        encode_text_preserves with frame.
    + destruct (req_file rq), (req_form_text_input rq);
        auto using run_handler_preserves, compute_similarity_preserves with frame.
    + auto with frame.
    + auto with frame.
    + auto with frame.
    + auto with frame.
  - destruct (path_known _); [|destruct (_ && _)]; auto with frame.
Qed.

Lemma serve_preserves (rqs : list request) : pres (serve json_loads Image_open rqs).
Proof.
  induction rqs as [|rq rqs IH]; simpl; [auto with frame|].
  apply bind_preserves; [apply app_preserves|intros].
  apply bind_preserves; [exact IH|auto with frame].
Qed.

End Frame.

(** ** The claims *)

Lemma existsb_eqb_In (s : string) (l : list string) :
  existsb (String.eqb s) l = true <-> In s l.
Proof.
  rewrite existsb_exists. split.
  - intros [x [Hin E]]. apply String.eqb_eq in E. subst. exact Hin.
  - intros H. exists s. split; [exact H|apply String.eqb_refl].
Qed.

Section Claims.

Context {Image Pixels Tokens : Type}.
Variable json_loads : string -> option json.
Variable Image_open : bytes -> option Image.

Local Abbreviation Glob := (Globals Image Pixels Tokens).

(** C1: for every 200 response of [/encode_image/] and [/encode_text/], each
    row of [features] is the raw encoder output divided by its L2 norm, and
    has L2 norm 1. *)
Theorem features_unit_normalized (g : Glob) :
  model_ok g ->
  (forall rq j,
     req_method rq = "POST" -> req_path rq = "/encode_image/" ->
     fst (app json_loads Image_open rq g) = Ok (mkResponse 200 (Some j)) ->
     exists file image raw,
       req_file rq = Some file /\ Image_open file = Some image /\
       raw = model_encode_image (model g) (preprocess_val g image) /\
       j = JObj [("features", rows_json [map (fun x => x / norm raw) raw])] /\
       norm (map (fun x => x / norm raw) raw) = 1) /\
  (forall rq j,
     req_method rq = "POST" -> req_path rq = "/encode_text/" ->
     fst (app json_loads Image_open rq g) = Ok (mkResponse 200 (Some j)) ->
     exists ti raws,
       parse_body_TextInput json_loads (req_body rq) = Some ti /\
       model_encode_text (model g) (tokenizer g (text_list ti)) = Some raws /\
       j = JObj [("features", rows_json (map (fun v => map (fun x => x / norm v) v) raws))] /\
       Forall (fun v => norm (map (fun x => x / norm v) v) = 1) raws).
Proof.
  intros Hok. split.
  - intros rq j Hm Hp H.
    destruct (encode_image_success json_loads Image_open rq g j Hok Hm Hp H)
      as [file [image [Hf [Hi [Hn ->]]]]].
    exists file, image, (model_encode_image (model g) (preprocess_val g image)).
    repeat split; auto. apply norm_unitR, Hn.
  - intros rq j Hm Hp H.
    destruct (encode_text_success json_loads Image_open rq g j Hok Hm Hp H)
      as [ti [txts [Hb [Ht [Hn ->]]]]].
    exists ti, txts. repeat split; auto.
    rewrite Forall_forall in Hn |- *. intros v Hv. apply norm_unitR, Hn, Hv.
Qed.

(** C2: for a 200 response of [/compute_similarity/] with a non-empty
    [text_list], [probabilities] is the softmax of 100 times the dot
    products of the normalized image and text embeddings; its entries are
    non-negative and sum to 1. *)
Theorem similarity_probabilities_sum_to_one (g : Glob) (rq : request) (ti : string)
    (fs : list (string * json)) (tl : list string) (j : json) :
  model_ok g -> req_method rq = "POST" -> req_path rq = "/compute_similarity/" ->
  req_form_text_input rq = Some ti -> json_loads ti = Some (JObj fs) ->
  validate_TextInput fs = Some (mkTextInput tl) -> tl <> [] ->
  fst (app json_loads Image_open rq g) = Ok (mkResponse 200 (Some j)) ->
  exists file image txts probs,
    req_file rq = Some file /\ Image_open file = Some image /\
    model_encode_text (model g) (tokenizer g tl) = Some txts /\
    probs = softmaxR (map (fun t =>
              100 * dotR (unitR (model_encode_image (model g) (preprocess_val g image)))
                         (unitR t)) txts) /\
    j = JObj [("probabilities", JArr (map (fun p => JNum (Fin p)) probs));
              ("labels", JArr (map JStr tl))] /\
    Forall (fun p => 0 <= p) probs /\ sumR probs = 1.
Proof.
  intros Hok Hm Hp Hti Hj Hv Hne H.
  destruct (compute_similarity_success json_loads Image_open rq g j Hok Hm Hp H)
    as [file [ti' [fs' [tl' [image [txts
        [Hf [Hti' [Hj' [Hv' [Hi [Ht [Hlen [_ [_ ->]]]]]]]]]]]]]]].
  rewrite Hti in Hti'. injection Hti' as <-. rewrite Hj in Hj'. injection Hj' as <-.
  rewrite Hv in Hv'. injection Hv' as <-.
  exists file, image, txts, (softmaxR (map (fun t =>
              100 * dotR (unitR (model_encode_image (model g) (preprocess_val g image)))
                         (unitR t)) txts)).
  repeat split; auto.
  - pose proof (softmaxR_pos (map (fun t =>
              100 * dotR (unitR (model_encode_image (model g) (preprocess_val g image)))
                         (unitR t)) txts)) as Hpos.
    rewrite Forall_forall in Hpos |- *. intros p Hp'. left. auto.
  - apply softmaxR_sum. destruct txts; simpl in *; [|discriminate].
    destruct tl; [contradiction|discriminate].
Qed.

(** C3: an upload that is not an image, or (for [/compute_similarity/]) a
    [text_input] field that is not JSON, yields a 500 without a JSON body. *)
Theorem malformed_input_error_response (g : Glob) :
  (forall rq file,
     req_method rq = "POST" -> req_path rq = "/encode_image/" ->
     req_file rq = Some file -> Image_open file = None ->
     fst (app json_loads Image_open rq g) = Ok (resp_error 500)) /\
  (forall rq file ti,
     req_method rq = "POST" -> req_path rq = "/compute_similarity/" ->
     req_file rq = Some file -> req_form_text_input rq = Some ti ->
     Image_open file = None \/ json_loads ti = None ->
     fst (app json_loads Image_open rq g) = Ok (resp_error 500)) /\
  resp_error 500 = mkResponse 500 None.
Proof.
  split; [|split; [|reflexivity]].
  - intros rq file Hm Hp Hf Hi. rewrite app_encode_image by assumption. rewrite Hf.
    unfold run_handler. rewrite encode_image_eval, Hi. reflexivity.
  - intros rq file ti Hm Hp Hf Hti Hbad.
    rewrite app_compute_similarity by assumption. rewrite Hf, Hti.
    unfold run_handler, compute_similarity, bind, get, of_option, of_result, ret, raise.
    destruct Hbad as [Hi|Hj].
    + destruct (json_loads ti); [|reflexivity].
      destruct (TextInput_kwargs j); [|reflexivity]. rewrite Hi. reflexivity.
    + rewrite Hj. reflexivity.
Qed.

(** C4: in [/compute_similarity/] the image and the text embeddings are
    divided by their L2 norms before the product, so the softmax is taken
    over 100 times the cosine similarities of the raw embeddings. *)
Theorem similarity_uses_cosines (g : Glob) (rq : request) (j : json) :
  model_ok g -> req_method rq = "POST" -> req_path rq = "/compute_similarity/" ->
  fst (app json_loads Image_open rq g) = Ok (mkResponse 200 (Some j)) ->
  exists file image ti fs tl txts,
    req_file rq = Some file /\ Image_open file = Some image /\
    req_form_text_input rq = Some ti /\ json_loads ti = Some (JObj fs) /\
    validate_TextInput fs = Some (mkTextInput tl) /\
    model_encode_text (model g) (tokenizer g tl) = Some txts /\
    Forall (fun t => norm t <> 0) txts /\
    (txts <> [] -> norm (model_encode_image (model g) (preprocess_val g image)) <> 0) /\
    (forall t, In t txts ->
       dotR (unitR (model_encode_image (model g) (preprocess_val g image))) (unitR t) =
       cosine (model_encode_image (model g) (preprocess_val g image)) t) /\
    j = JObj [("probabilities",
               JArr (map (fun p => JNum (Fin p))
                 (softmaxR (map (fun t =>
                    100 * cosine (model_encode_image (model g) (preprocess_val g image)) t)
                    txts))));
              ("labels", JArr (map JStr tl))].
Proof.
  intros Hok Hm Hp H.
  destruct (compute_similarity_success json_loads Image_open rq g j Hok Hm Hp H)
    as [file [ti [fs [tl [image [txts
        [Hf [Hti [Hj [Hv [Hi [Ht [_ [Hn [Himg ->]]]]]]]]]]]]]]].
  exists file, image, ti, fs, tl, txts. repeat split; auto.
  - intros t _. apply dotR_unit.
  - rewrite (map_ext (fun t => 100 * dotR (unitR (model_encode_image (model g)
                          (preprocess_val g image))) (unitR t))
                      (fun t => 100 * cosine (model_encode_image (model g)
                          (preprocess_val g image)) t));
      [reflexivity|].
    intros t. rewrite dotR_unit. reflexivity.
Qed.

(** C5: for a 200 response of [/compute_similarity/], [labels] is the
    input [text_list] unchanged and [probabilities] has one entry per
    label. *)
Theorem similarity_labels_echo_input (g : Glob) (rq : request) (j : json) :
  model_ok g -> req_method rq = "POST" -> req_path rq = "/compute_similarity/" ->
  fst (app json_loads Image_open rq g) = Ok (mkResponse 200 (Some j)) ->
  exists ti fs tl ps,
    req_form_text_input rq = Some ti /\ json_loads ti = Some (JObj fs) /\
    lookup "text_list" fs = Some (JArr (map JStr tl)) /\
    j = JObj [("probabilities", JArr ps); ("labels", JArr (map JStr tl))] /\
    List.length ps = List.length tl.
Proof.
  intros Hok Hm Hp H.
  destruct (compute_similarity_success json_loads Image_open rq g j Hok Hm Hp H)
    as [file [ti [fs [tl [image [txts
        [Hf [Hti [Hj [Hv [Hi [Ht [Hlen [_ [_ ->]]]]]]]]]]]]]]].
  eexists ti, fs, tl, _. repeat split; eauto using validate_TextInput_labels.
  unfold softmaxR. rewrite !length_map. exact Hlen.
Qed.


Variable create_model_and_transforms :
  string -> Model Pixels Tokens * (Image -> Pixels) * (Image -> Pixels).
Variable get_tokenizer : string -> list string -> Tokens.
Variable cuda_is_available : bool.

(** C7: the globals are built once by [boot]; no request changes them, for
    any sequence of requests. *)
Theorem globals_unchanged_by_requests :
  (forall rq (g : Glob), snd (app json_loads Image_open rq g) = g) /\
  (forall rqs (g : Glob), snd (serve json_loads Image_open rqs g) = g) /\
  (forall rqs, snd (main json_loads Image_open create_model_and_transforms get_tokenizer
                      cuda_is_available rqs)
               = boot create_model_and_transforms get_tokenizer cuda_is_available).
Proof.
  split; [|split].
  - intros rq g. apply app_preserves.
  - intros rqs g. apply serve_preserves.
  - intros rqs. unfold main.
    pose proof (serve_preserves json_loads Image_open rqs
                  (boot create_model_and_transforms get_tokenizer cuda_is_available)) as H.
    destruct (serve _ _ rqs _) as [[resps|e] g']; simpl in *; exact H.
Qed.

(** C8: a body of [/encode_text/] that is not a valid [TextInput] is
    answered 422 by request validation, whatever the model; a [text_input]
    field of [/compute_similarity/] that is not JSON or has no [text_list]
    makes the handler raise, which the framework turns into a 500. *)
Theorem text_input_rejection_paths (g : Glob) :
  (forall rq,
     req_method rq = "POST" -> req_path rq = "/encode_text/" ->
     parse_body_TextInput json_loads (req_body rq) = None ->
     app json_loads Image_open rq g = (Ok (resp_error 422), g)) /\
  (forall rq file ti,
     req_method rq = "POST" -> req_path rq = "/compute_similarity/" ->
     req_file rq = Some file -> req_form_text_input rq = Some ti ->
     (json_loads ti = None \/
      exists fs, json_loads ti = Some (JObj fs) /\ lookup "text_list" fs = None) ->
     (fst (compute_similarity json_loads Image_open file ti g) = Err JSONDecodeError \/
      fst (compute_similarity json_loads Image_open file ti g) = Err ValidationError) /\
     fst (app json_loads Image_open rq g) = Ok (resp_error 500)).
Proof.
  split.
  - intros rq Hm Hp Hb. rewrite app_encode_text by assumption. rewrite Hb. reflexivity.
  - intros rq file ti Hm Hp Hf Hti Hbad.
    assert (Hraise : fst (compute_similarity json_loads Image_open file ti g) = Err JSONDecodeError \/
                     fst (compute_similarity json_loads Image_open file ti g) = Err ValidationError).
    { unfold compute_similarity, bind, get, of_option, of_result, ret, raise.
      destruct Hbad as [Hj|[fs [Hj Hl]]]; rewrite Hj; [left; reflexivity|right].
      simpl. unfold validate_TextInput. rewrite Hl. reflexivity. }
    split; [exact Hraise|].
    rewrite app_compute_similarity by assumption. rewrite Hf, Hti. unfold run_handler.
    destruct (compute_similarity json_loads Image_open file ti g) as [r g'].
    simpl in *. destruct Hraise as [->| ->]; reflexivity.
Qed.

(** C9: when [text_list] is empty, a 200 response of [/compute_similarity/]
    has an empty [probabilities] list, whose sum is 0, not 1. *)
Theorem empty_text_list_empty_probabilities (g : Glob) (rq : request) (ti : string)
    (fs : list (string * json)) (j : json) :
  model_ok g -> req_method rq = "POST" -> req_path rq = "/compute_similarity/" ->
  req_form_text_input rq = Some ti -> json_loads ti = Some (JObj fs) ->
  validate_TextInput fs = Some (mkTextInput []) ->
  fst (app json_loads Image_open rq g) = Ok (mkResponse 200 (Some j)) ->
  j = JObj [("probabilities", JArr []); ("labels", JArr [])] /\ sumR [] <> 1.
Proof.
  intros Hok Hm Hp Hti Hj Hv H.
  destruct (compute_similarity_success json_loads Image_open rq g j Hok Hm Hp H)
    as [file [ti' [fs' [tl [image [txts
        [Hf [Hti' [Hj' [Hv' [Hi [Ht [Hlen [_ [_ ->]]]]]]]]]]]]]]].
  rewrite Hti in Hti'. injection Hti' as <-. rewrite Hj in Hj'. injection Hj' as <-.
  rewrite Hv in Hv'. injection Hv' as <-.
  destruct txts; [|discriminate]. split; [reflexivity|simpl; lra].
Qed.

(** C10: the normalization divides by the norm without a guard: a zero
    encoder output becomes a row of NaN (a non-zero one its unit vector).
    [/encode_image/] returns that NaN row from the handler, [/encode_text/]
    returns the NaN row of a zero text row among the others, and in
    [/compute_similarity/] a zero image row or a zero text row turns every
    probability into NaN; no branch handles the zero vector. *)
Theorem normalization_unguarded (g : Glob) :
  (forall v, norm v = 0 -> normalize v = map (fun _ => NaN) v) /\
  (forall v, norm v <> 0 -> normalize v = map Fin (unitR v)) /\
  (forall file image,
     Image_open file = Some image ->
     norm (model_encode_image (model g) (preprocess_val g image)) = 0 ->
     encode_image Image_open file g =
       (Ok (JObj [("features",
              tolist [map (fun _ => NaN) (model_encode_image (model g) (preprocess_val g image))])]),
        g)) /\
  (forall ti txts t,
     model_encode_text (model g) (tokenizer g (text_list ti)) = Some txts ->
     In t txts -> norm t = 0 ->
     encode_text ti g = (Ok (JObj [("features", tolist (map normalize txts))]), g) /\
     In (map (fun _ => NaN) t) (map normalize txts)) /\
  (forall file ti fs tl image txts,
     json_loads ti = Some (JObj fs) -> validate_TextInput fs = Some (mkTextInput tl) ->
     Image_open file = Some image ->
     model_encode_text (model g) (tokenizer g tl) = Some txts ->
     txts <> [] -> model_encode_image (model g) (preprocess_val g image) <> [] ->
     Forall (fun t => List.length t =
                      List.length (model_encode_image (model g) (preprocess_val g image))) txts ->
     (norm (model_encode_image (model g) (preprocess_val g image)) = 0 \/
      exists t, In t txts /\ norm t = 0) ->
     compute_similarity json_loads Image_open file ti g =
       (Ok (JObj [("probabilities", tolist_row (map (fun _ => NaN) txts));
                  ("labels", JArr (map JStr tl))]), g)).
Proof.
  split; [exact normalize_zero|]. split; [exact normalize_fin|]. split; [|split].
  - intros file image Hi Hz. rewrite encode_image_eval, Hi, (normalize_zero _ Hz).
    reflexivity.
  - intros ti txts t Ht Hin Hz. rewrite encode_text_eval, Ht. split; [reflexivity|].
    rewrite <- (normalize_zero t Hz). apply in_map. exact Hin.
  - intros file ti fs tl image txts Hj Hv Hi Ht Hne Hne' Hl Hz.
    set (img := model_encode_image (model g) (preprocess_val g image)) in *.
    destruct (Req_dec_T (norm img) 0) as [Hzi|Hzi].
    + rewrite (compute_similarity_logits json_loads Image_open file ti g fs tl image txts
                 [map (fun _ => NaN) txts] Hj Hv Hi Ht).
      * cbn [map nth_error]. rewrite softmax_nan, map_map; [reflexivity|].
        destruct txts as [|t txts]; [contradiction|left; reflexivity].
      * fold img. rewrite (normalize_zero img Hzi). unfold fscale. cbn [map].
        rewrite scale_nan, matmul_T_single, logits_nan by assumption. reflexivity.
    + destruct Hz as [Hz|[t [Hin Hzt]]]; [contradiction|].
      assert (Hl' : Forall (fun t => List.length t = List.length (map (Rmult 100) (unitR img)))
                      txts)
        by (unfold unitR; rewrite !length_map; exact Hl).
      assert (Ha : map (Rmult 100) (unitR img) <> [])
        by (unfold unitR; destruct img; [contradiction|discriminate]).
      destruct (logits_fin _ txts Ha Hl') as [[Hn _]|[row [Hrow Hnan]]].
      { rewrite Forall_forall in Hn. exfalso. exact (Hn t Hin Hzt). }
      rewrite (compute_similarity_logits json_loads Image_open file ti g fs tl image txts [row] Hj Hv Hi Ht).
      * cbn [map nth_error]. rewrite (softmax_nan row Hnan).
        rewrite (map_const_length NaN row txts); [reflexivity|].
        rewrite (omap_length _ _ _ Hrow), length_map. reflexivity.
      * fold img. rewrite (normalize_fin img Hzi). unfold fscale. cbn [map].
        rewrite scale_fin, matmul_T_single, Hrow. reflexivity.
Qed.

End Claims.


(** ** Witnesses on the concrete instance *)

Lemma ex_norm_zero : norm [0] = 0.
Proof. unfold norm. simpl. replace (0 * 0 + 0) with 0 by ring. apply sqrt_0. Qed.

Lemma features_unit_normalized_witness :
  model_ok (ex_globals [1]) /\
  fst (app ex_json_loads ex_Image_open ex_image_request (ex_globals [1]))
    = Ok (mkResponse 200 (Some (JObj [("features", JArr [JArr [JNum (Fin 1)]])]))) /\
  exists file image raw,
    req_file ex_image_request = Some file /\ ex_Image_open file = Some image /\
    raw = [1] /\ norm (map (fun x => x / norm raw) raw) = 1.
Proof.
  assert (Hok : model_ok (ex_globals [1])) by (apply ex_model_ok; reflexivity).
  split; [exact Hok|]. split; [exact ex_encode_image_run|].
  destruct (proj1 (features_unit_normalized ex_json_loads ex_Image_open (ex_globals [1]) Hok)
              ex_image_request _ eq_refl eq_refl ex_encode_image_run)
    as [file [image [raw [Hf [Hi [Hraw [_ Hn]]]]]]].
  exists file, image, raw.
  split; [exact Hf|]. split; [exact Hi|]. split; [rewrite Hraw; reflexivity|exact Hn].
Defined.

Lemma similarity_probabilities_sum_to_one_witness :
  exists j,
    fst (app ex_json_loads ex_Image_open ex_similarity_request (ex_globals [1]))
      = Ok (mkResponse 200 (Some j)) /\
    exists probs,
      j = JObj [("probabilities", JArr (map (fun p => JNum (Fin p)) probs));
                ("labels", JArr [JStr "red dress"])] /\
      Forall (fun p => 0 <= p) probs /\ sumR probs = 1.
Proof.
  destruct ex_similarity_run as [p Hrun].
  eexists. split; [exact Hrun|].
  destruct (similarity_probabilities_sum_to_one ex_json_loads ex_Image_open (ex_globals [1])
              ex_similarity_request ex_text_input [("text_list", JArr [JStr "red dress"])]
              ["red dress"] _ (ex_model_ok [1] eq_refl) eq_refl eq_refl eq_refl eq_refl
              eq_refl ltac:(discriminate) Hrun)
    as [file [image [txts [probs [_ [_ [_ [_ [Hj [Hpos Hs]]]]]]]]]].
  exists probs. split; [exact Hj|]. split; [exact Hpos|exact Hs].
Defined.

Lemma malformed_input_error_response_witness :
  fst (app ex_json_loads ex_Image_open (ex_request "/encode_image/" (Some []) None None)
         (ex_globals [1])) = Ok (resp_error 500) /\
  fst (app ex_json_loads ex_Image_open
         (ex_request "/compute_similarity/" (Some ex_png) (Some "not json") None)
         (ex_globals [1])) = Ok (resp_error 500).
Proof.
  destruct (malformed_input_error_response ex_json_loads ex_Image_open (ex_globals [1]))
    as [H1 [H2 _]].
  split.
  - apply (H1 _ []); reflexivity.
  - apply (H2 _ ex_png "not json"); try reflexivity. right. reflexivity.
Defined.

Lemma similarity_uses_cosines_witness :
  exists j,
    fst (app ex_json_loads ex_Image_open ex_similarity_request (ex_globals [1]))
      = Ok (mkResponse 200 (Some j)) /\
    exists tl img txts,
      j = JObj [("probabilities",
                 JArr (map (fun p => JNum (Fin p))
                   (softmaxR (map (fun t => 100 * cosine img t) txts))));
                ("labels", JArr (map JStr tl))].
Proof.
  destruct ex_similarity_run as [p Hrun].
  eexists. split; [exact Hrun|].
  destruct (similarity_uses_cosines ex_json_loads ex_Image_open (ex_globals [1])
              ex_similarity_request _ (ex_model_ok [1] eq_refl) eq_refl eq_refl Hrun)
    as [file [image [ti [fs [tl [txts [_ [_ [_ [_ [_ [_ [_ [_ [_ Hj]]]]]]]]]]]]]]].
  eexists tl, _, txts. exact Hj.
Defined.

Lemma similarity_labels_echo_input_witness :
  exists j,
    fst (app ex_json_loads ex_Image_open ex_similarity_request (ex_globals [1]))
      = Ok (mkResponse 200 (Some j)) /\
    exists ps tl,
      j = JObj [("probabilities", JArr ps); ("labels", JArr (map JStr tl))] /\
      List.length ps = List.length tl.
Proof.
  destruct ex_similarity_run as [p Hrun].
  eexists. split; [exact Hrun|].
  destruct (similarity_labels_echo_input ex_json_loads ex_Image_open (ex_globals [1])
              ex_similarity_request _ (ex_model_ok [1] eq_refl) eq_refl eq_refl Hrun)
    as [ti [fs [tl [ps [_ [_ [_ [Hj Hl]]]]]]]].
  exists ps, tl. split; [exact Hj|exact Hl].
Defined.



Lemma text_input_rejection_paths_witness :
  app ex_json_loads ex_Image_open (ex_request "/encode_text/" None None (Some "not json"))
      (ex_globals [1]) = (Ok (resp_error 422), ex_globals [1]) /\
  fst (app ex_json_loads ex_Image_open
         (ex_request "/compute_similarity/" (Some ex_png) (Some "not json") None)
         (ex_globals [1])) = Ok (resp_error 500).
Proof.
  destruct (text_input_rejection_paths ex_json_loads ex_Image_open (ex_globals [1]))
    as [H1 H2].
  split.
  - apply H1; reflexivity.
  - apply (H2 _ ex_png "not json"); try reflexivity. left. reflexivity.
Defined.

Lemma empty_text_list_empty_probabilities_witness :
  fst (app ex_json_loads ex_Image_open ex_empty_request (ex_globals [1]))
    = Ok (mkResponse 200 (Some (JObj [("probabilities", JArr []); ("labels", JArr [])]))) /\
  sumR [] <> 1.
Proof.
  split; [exact ex_similarity_empty_run|].
  exact (proj2 (empty_text_list_empty_probabilities ex_json_loads ex_Image_open
                  (ex_globals [1]) ex_empty_request ex_empty_input
                  [("text_list", JArr [])] _ (ex_model_ok [1] eq_refl)
                  eq_refl eq_refl eq_refl eq_refl eq_refl ex_similarity_empty_run)).
Defined.

Lemma normalization_unguarded_witness :
  encode_image ex_Image_open ex_png (ex_globals [0])
    = (Ok (JObj [("features", tolist [[NaN]])]), ex_globals [0]) /\
  compute_similarity ex_json_loads ex_Image_open ex_png ex_text_input (ex_globals [0])
    = (Ok (JObj [("probabilities", tolist_row [NaN]);
                 ("labels", JArr [JStr "red dress"])]), ex_globals [0]).
Proof.
  destruct (normalization_unguarded ex_json_loads ex_Image_open (ex_globals [0]))
    as [_ [_ [Hi [_ Hs]]]].
  split; [exact (Hi ex_png tt eq_refl ex_norm_zero)|].
  exact (Hs ex_png ex_text_input [("text_list", JArr [JStr "red dress"])] ["red dress"] tt
           _ (ltac:(vm_compute; reflexivity)) eq_refl eq_refl eq_refl
           ltac:(discriminate) ltac:(discriminate)
           (ltac:(repeat constructor)) (or_introl ex_norm_zero)).
Defined.


(** ** Further properties of the handlers, the routing and the middleware *)

Lemma sumsq_mult (c : R) (v : vec) : sumsq (map (Rmult c) v) = c * c * sumsq v.
Proof. induction v as [|x v IH]; simpl; [ring|rewrite IH; ring]. Qed.

Lemma norm_mult (c : R) (v : vec) : 0 < c -> norm (map (Rmult c) v) = c * norm v.
Proof.
  intros Hc. unfold norm. rewrite sumsq_mult, sqrt_mult_alt.
  - rewrite sqrt_square by lra. reflexivity.
  - apply Rmult_le_pos; lra.
Qed.

Lemma normalize_mult (c : R) (v : vec) : 0 < c -> normalize (map (Rmult c) v) = normalize v.
Proof.
  intros Hc. destruct (Req_dec_T (norm v) 0) as [Hz|Hz].
  - assert (Hz' : norm (map (Rmult c) v) = 0) by (rewrite norm_mult, Hz by exact Hc; ring).
    rewrite (normalize_zero v Hz), (normalize_zero _ Hz'), map_map. reflexivity.
  - assert (Hz' : norm (map (Rmult c) v) <> 0)
      by (rewrite norm_mult by exact Hc; apply Rmult_integral_contrapositive; split; lra).
    rewrite (normalize_fin v Hz), (normalize_fin _ Hz'). f_equal.
    unfold unitR. rewrite norm_mult by exact Hc. rewrite map_map. apply map_ext.
    intros x. field. split; lra.
Qed.

Lemma map_normalize_mult (c : R) (txts : list vec) :
  0 < c -> map normalize (map (map (Rmult c)) txts) = map normalize txts.
Proof. intros Hc. rewrite map_map. apply map_ext. intros v. apply normalize_mult, Hc. Qed.

Section Extras.

Context {Image Pixels Tokens : Type}.
Variable json_loads : string -> option json.
Variable Image_open : bytes -> option Image.

Local Abbreviation Glob := (Globals Image Pixels Tokens).

Lemma run_handler_fst (h : M json) (g : Glob) :
  fst (run_handler h g) = Ok (render (fst (h g))).
Proof. unfold run_handler. destruct (h g); reflexivity. Qed.

Lemma app_fst_ok (rq : request) (g : Glob) :
  exists r, fst (app json_loads Image_open rq g) = Ok r.
Proof.
  unfold app. destruct (find_route _ _) as [r|].
  - destruct (route_endpoint r); cbn [endpoint_app].
    + destruct (req_file rq); try rewrite run_handler_fst; eexists; reflexivity.
    + destruct (parse_body_TextInput _ _); try rewrite run_handler_fst; eexists; reflexivity.
    + destruct (req_file rq), (req_form_text_input rq);
        try rewrite run_handler_fst; eexists; reflexivity.
    + eexists; reflexivity.
    + eexists; reflexivity.
    + eexists; reflexivity.
    + eexists; reflexivity.
  - destruct (path_known _); [|destruct (_ && _)]; eexists; reflexivity.
Qed.

Lemma app_total (rq : request) (g : Glob) :
  exists r, app json_loads Image_open rq g = (Ok r, g).
Proof.
  destruct (app_fst_ok rq g) as [r Hr]. exists r.
  pose proof (app_preserves json_loads Image_open rq g) as Hs.
  destruct (app json_loads Image_open rq g) as [x y]. simpl in *. subst. reflexivity.
Qed.

Lemma serve_each (rqs : list request) (g : Glob) :
  exists resps, serve json_loads Image_open rqs g = (Ok resps, g) /\
    Forall2 (fun rq r => fst (app json_loads Image_open rq g) = Ok r) rqs resps.
Proof.
  induction rqs as [|rq rqs IH].
  - exists []. split; [reflexivity|constructor].
  - destruct (app_total rq g) as [r Hr]. destruct IH as [resps [Hs Hf]].
    exists (r :: resps). split.
    + cbn [serve]. unfold bind. rewrite Hr. cbv beta iota. rewrite Hs. reflexivity.
    + constructor; [rewrite Hr; reflexivity|exact Hf].
Qed.

Lemma encode_image_scale (ci ct : R) (f : bytes) (g : Glob) :
  0 < ci -> fst (encode_image Image_open f (scale_model ci ct g)) = fst (encode_image Image_open f g).
Proof.
  intros Hc. rewrite !encode_image_eval. destruct (Image_open f); [|reflexivity].
  cbn [fst scale_model model preprocess_val model_encode_image].
  rewrite normalize_mult by exact Hc. reflexivity.
Qed.

Lemma encode_text_scale (ci ct : R) (ti : TextInput) (g : Glob) :
  0 < ct -> fst (encode_text ti (scale_model ci ct g)) = fst (encode_text ti g).
Proof.
  intros Hc. rewrite !encode_text_eval. cbn [scale_model model tokenizer model_encode_text].
  destruct (model_encode_text (model g) (tokenizer g (text_list ti))) as [txts|];
    cbn [option_map fst]; [|reflexivity].
  rewrite map_normalize_mult by exact Hc. reflexivity.
Qed.

Lemma compute_similarity_scale (ci ct : R) (f : bytes) (ti : string) (g : Glob) :
  0 < ci -> 0 < ct ->
  fst (compute_similarity json_loads Image_open f ti (scale_model ci ct g)) =
  fst (compute_similarity json_loads Image_open f ti g).
Proof.
  intros Hi Ht. unfold compute_similarity, bind, get, of_option, of_result, ret, raise.
  destruct (json_loads ti) as [d|]; [|reflexivity].
  destruct (TextInput_kwargs d) as [t|e]; [|reflexivity].
  destruct (Image_open f) as [image|]; [|reflexivity].
  cbn [scale_model model tokenizer preprocess_val model_encode_image model_encode_text map].
  destruct (model_encode_text (model g) (tokenizer g (text_list t))) as [txts|];
    cbn [option_map]; [|reflexivity].
  rewrite normalize_mult, map_normalize_mult by assumption.
  destruct (matmul_T _ _); [|reflexivity]. destruct (nth_error _ 0); reflexivity.
Qed.

(** X1: [compute_similarity] parses [text_input] before it reads the
    upload: a field that is not JSON raises [JSONDecodeError] and one that
    [TextInput( ** d)] rejects raises that error, whatever the file; with a
    valid field, an upload PIL cannot open raises [UnidentifiedImageError]
    before the model runs. *)
Theorem similarity_error_order (g : Glob) (file : bytes) (ti : string) :
  (json_loads ti = None ->
     fst (compute_similarity json_loads Image_open file ti g) = Err JSONDecodeError) /\
  (forall d e, json_loads ti = Some d -> TextInput_kwargs d = Err e ->
     fst (compute_similarity json_loads Image_open file ti g) = Err e) /\
  (forall d t, json_loads ti = Some d -> TextInput_kwargs d = Ok t ->
     Image_open file = None ->
     fst (compute_similarity json_loads Image_open file ti g) = Err UnidentifiedImageError).
Proof.
  unfold compute_similarity, bind, get, of_option, of_result, ret, raise.
  split; [|split].
  - intros H. rewrite H. reflexivity.
  - intros d e Hd He. rewrite Hd, He. reflexivity.
  - intros d t Hd Ht Hi. rewrite Hd, Ht, Hi. reflexivity.
Qed.

(** X12: with a single label, a 200 response of [/compute_similarity/]
    gives it probability exactly 1, whatever the image: the softmax of one
    logit. *)
Theorem similarity_single_label_certain (g : Glob) (rq : request) (j : json)
    (ti : string) (fs : list (string * json)) (label : string) :
  model_ok g -> req_method rq = "POST" -> req_path rq = "/compute_similarity/" ->
  req_form_text_input rq = Some ti -> json_loads ti = Some (JObj fs) ->
  lookup "text_list" fs = Some (JArr [JStr label]) ->
  fst (app json_loads Image_open rq g) = Ok (mkResponse 200 (Some j)) ->
  j = JObj [("probabilities", JArr [JNum (Fin 1)]); ("labels", JArr [JStr label])].
Proof.
  intros Hok Hm Hp Hf Hl Hlk H.
  destruct (compute_similarity_success json_loads Image_open rq g j Hok Hm Hp H)
    as [file [ti' [fs' [tl [image [txts
        [_ [Hti [Hj [Hv [_ [_ [Hlen [_ [_ ->]]]]]]]]]]]]]]].
  rewrite Hf in Hti. injection Hti as <-. rewrite Hl in Hj. injection Hj as <-.
  apply validate_TextInput_labels in Hv. rewrite Hlk in Hv. injection Hv as Hv.
  destruct tl as [|l [|l' tl]]; try discriminate. injection Hv as <-.
  destruct txts as [|t [|t' txts]]; try discriminate.
  unfold softmaxR. simpl. rewrite Rplus_0_r, Rdiv_diag by apply exp_neq_0.
  reflexivity.
Qed.

(** X7: the embeddings of the two encoding endpoints are comparable: the
    200 response of [/encode_image/] holds one row, the 200 response of
    [/encode_text/] one row per text of [text_list], and every text row
    has as many entries as the image row, which is not empty. *)
Theorem features_same_dimension (g : Glob) (rqi rqt : request) (ji jt : json) :
  model_ok g ->
  req_method rqi = "POST" -> req_path rqi = "/encode_image/" ->
  req_method rqt = "POST" -> req_path rqt = "/encode_text/" ->
  fst (app json_loads Image_open rqi g) = Ok (mkResponse 200 (Some ji)) ->
  fst (app json_loads Image_open rqt g) = Ok (mkResponse 200 (Some jt)) ->
  exists row rows ti,
    ji = JObj [("features", JArr [JArr row])] /\
    jt = JObj [("features", JArr (map JArr rows))] /\
    parse_body_TextInput json_loads (req_body rqt) = Some ti /\
    List.length rows = List.length (text_list ti) /\
    Forall (fun r => List.length r = List.length row) rows /\
    row <> [].
Proof.
  intros Hok Hmi Hpi Hmt Hpt Hji Hjt.
  destruct (encode_image_success json_loads Image_open rqi g ji Hok Hmi Hpi Hji)
    as [file [image [_ [_ [_ ->]]]]].
  destruct (encode_text_success json_loads Image_open rqt g jt Hok Hmt Hpt Hjt)
    as [ti [txts [Hb [Ht [_ ->]]]]].
  destruct Hok as [d [Hd [Hi Htx]]]. destruct (Htx _ _ Ht) as [Hlen Hdim].
  set (cell := fun x => JNum (Fin x)).
  exists (map cell (unitR (model_encode_image (model g) (preprocess_val g image)))),
         (map (map cell) (map unitR txts)), ti.
  split; [reflexivity|]. split.
  { unfold rows_json. rewrite !map_map. reflexivity. }
  split; [exact Hb|]. split.
  { rewrite !length_map. exact Hlen. }
  split.
  - apply Forall_forall. intros r Hr. apply in_map_iff in Hr. destruct Hr as [w [<- Hw]].
    apply in_map_iff in Hw. destruct Hw as [t [<- Htin]].
    unfold unitR. rewrite !length_map, Hi. rewrite Forall_forall in Hdim. apply Hdim, Htin.
  - unfold unitR. rewrite <- length_zero_iff_nil, !length_map, Hi. lia.
Qed.

(** X8: the responses do not depend on the magnitude of the embeddings:
    multiplying every image embedding the model returns by a positive [ci]
    and every text embedding by a positive [ct] changes no response of any
    route. *)
Theorem responses_invariant_under_scaling (g : Glob) (ci ct : R) (rq : request) :
  0 < ci -> 0 < ct ->
  fst (app json_loads Image_open rq (scale_model ci ct g)) =
  fst (app json_loads Image_open rq g).
Proof.
  intros Hi Ht. unfold app.
  destruct (find_route _ _) as [r|];
    [|destruct (path_known _); [|destruct (_ && _)]; reflexivity].
  destruct (route_endpoint r); cbn [endpoint_app]; try reflexivity.
  - destruct (req_file rq); [|reflexivity].
    rewrite !run_handler_fst, encode_image_scale by exact Hi. reflexivity.
  - destruct (parse_body_TextInput _ _); [|reflexivity].
    rewrite !run_handler_fst, encode_text_scale by exact Ht. reflexivity.
  - destruct (req_file rq), (req_form_text_input rq); try reflexivity.
    rewrite !run_handler_fst, compute_similarity_scale by assumption. reflexivity.
Qed.

(** X10: a CORS preflight ([OPTIONS] with [Origin] and
    [Access-Control-Request-Method]) is answered by the middleware without
    reaching the routes or the model, on any path: 200 exactly when the
    origin is [http://localhost:5173] and the method is one of Starlette's
    [ALL_METHODS] (QUERY included), 400 otherwise; only that origin gets
    [Access-Control-Allow-Origin]. *)
Theorem cors_preflight_answer (crq : cors_request) (o meth : string) :
  origin crq = Some o -> req_method (cors_inner crq) = "OPTIONS" ->
  access_control_request_method crq = Some meth ->
  exists resp,
    (forall g : Glob, cors_app json_loads Image_open crq g = (Ok resp, g)) /\
    (status (cors_resp resp) = 200%Z <-> o = "http://localhost:5173" /\ In meth ALL_METHODS) /\
    (status (cors_resp resp) <> 200%Z -> status (cors_resp resp) = 400%Z) /\
    (o = "http://localhost:5173" -> allow_origin_header resp = Some o) /\
    (o <> "http://localhost:5173" -> allow_origin_header resp = None).
Proof.
  intros Ho Hm Ha.
  exists (preflight_response o meth (access_control_request_headers crq)). split.
  { intros g. unfold cors_app. rewrite Ho, Hm, Ha. reflexivity. }
  unfold preflight_response, is_allowed_origin, allow_origins.
  cbn [existsb cors_resp status allow_origin_header]. rewrite orb_false_r.
  pose proof (existsb_eqb_In meth ALL_METHODS) as HM.
  destruct (String.eqb o "http://localhost:5173") eqn:Eo;
    [apply String.eqb_eq in Eo|apply String.eqb_neq in Eo];
    destruct (existsb (String.eqb meth) ALL_METHODS) eqn:Em; cbn [app status];
    (split; [split; [intros Hs|intros [Hs1 Hs2]]|]); try tauto; try discriminate;
    try (exfalso; apply HM in Hs2; discriminate).
Qed.

(** X11: any other request (no [Origin], or not a preflight) goes through
    the routes and keeps [app]'s status and body.  It gets
    [Access-Control-Allow-Origin] exactly when its origin is
    [http://localhost:5173]; a request from another origin is still run and
    answered.  A 500 (an exception of the handler) gets no CORS header,
    even for the allowed origin. *)
Theorem cors_routed_answer (g : Glob) (crq : cors_request) :
  (origin crq = None \/ req_method (cors_inner crq) <> "OPTIONS" \/
   access_control_request_method crq = None) ->
  exists r resp,
    fst (app json_loads Image_open (cors_inner crq) g) = Ok r /\
    cors_app json_loads Image_open crq g = (Ok resp, g) /\
    cors_resp resp = r /\
    (origin crq = None \/ status r = 500%Z -> allow_origin_header resp = None) /\
    (forall o, origin crq = Some o -> status r <> 500%Z ->
       allow_credentials_header resp = true /\
       (allow_origin_header resp = Some o <-> o = "http://localhost:5173") /\
       (o <> "http://localhost:5173" -> allow_origin_header resp = None)).
Proof.
  intros Hnp. destruct (app_total (cors_inner crq) g) as [r Hr].
  assert (Hsimple : forall o, origin crq = Some o ->
            cors_app json_loads Image_open crq g = (Ok (cors_decorate o r), g)).
  { intros o Ho. unfold cors_app. rewrite Ho.
    destruct (String.eqb (req_method (cors_inner crq)) "OPTIONS") eqn:Em;
      destruct (access_control_request_method crq) eqn:Ea;
      try (rewrite Hr; reflexivity).
    apply String.eqb_eq in Em. exfalso.
    destruct Hnp as [Hn|[Hn|Hn]]; congruence. }
  destruct (origin crq) as [o|] eqn:Ho.
  - exists r, (cors_decorate o r). rewrite Hr. split; [reflexivity|].
    split; [exact (Hsimple o eq_refl)|].
    unfold cors_decorate. destruct (Z.eqb (status r) 500) eqn:Ez;
      [apply Z.eqb_eq in Ez|apply Z.eqb_neq in Ez].
    + split; [reflexivity|]. split; [reflexivity|].
      intros o' Ho' Hne. contradiction.
    + unfold simple_response, is_allowed_origin, allow_origins.
      cbn [existsb cors_resp allow_origin_header allow_credentials_header].
      rewrite orb_false_r. split; [reflexivity|]. split.
      { intros [Hd|Hd]; [discriminate|contradiction]. }
      intros o' Ho' _. injection Ho' as <-. split; [reflexivity|].
      destruct (String.eqb o "http://localhost:5173") eqn:Eo;
        [apply String.eqb_eq in Eo|apply String.eqb_neq in Eo].
      * split; [split; auto|intros; contradiction].
      * split; [split; [discriminate|intros; contradiction]|reflexivity].
  - exists r, (plain_response r). rewrite Hr. split; [reflexivity|].
    split; [unfold cors_app; rewrite Ho, Hr; reflexivity|].
    split; [reflexivity|]. split; [reflexivity|]. intros o' Ho'. discriminate.
Qed.

Variable create_model_and_transforms :
  string -> Model Pixels Tokens * (Image -> Pixels) * (Image -> Pixels).
Variable get_tokenizer : string -> list string -> Tokens.
Variable cuda_is_available : bool.

(** X9: the process answers every request, in order, exactly as [app]
    answers it alone on the freshly booted globals: no request influences
    the answer to a later one. *)
Theorem main_answers_requests_independently (rqs : list request) :
  Forall2 (fun rq r =>
             fst (app json_loads Image_open rq
                    (boot create_model_and_transforms get_tokenizer cuda_is_available)) = Ok r)
          rqs
          (fst (main json_loads Image_open create_model_and_transforms get_tokenizer
                  cuda_is_available rqs)).
Proof.
  unfold main.
  destruct (serve_each rqs (boot create_model_and_transforms get_tokenizer cuda_is_available))
    as [resps [Hs Hf]].
  rewrite Hs. exact Hf.
Qed.

End Extras.

Lemma similarity_error_order_witness :
  fst (compute_similarity ex_json_loads_x ex_Image_open [] "not json" (ex_globals [1]))
    = Err JSONDecodeError /\
  fst (compute_similarity ex_json_loads_x ex_Image_open [] "[1]" (ex_globals [1]))
    = Err TypeError /\
  fst (compute_similarity ex_json_loads_x ex_Image_open [] "{}" (ex_globals [1]))
    = Err ValidationError /\
  fst (compute_similarity ex_json_loads_x ex_Image_open [] ex_text_input (ex_globals [1]))
    = Err UnidentifiedImageError.
Proof.
  split; [|split; [|split]].
  - apply (proj1 (similarity_error_order ex_json_loads_x ex_Image_open (ex_globals [1])
                    [] "not json")).
    reflexivity.
  - apply (proj1 (proj2 (similarity_error_order ex_json_loads_x ex_Image_open
                           (ex_globals [1]) [] "[1]")) (JArr [JNum (Fin 1)]));
      reflexivity.
  - apply (proj1 (proj2 (similarity_error_order ex_json_loads_x ex_Image_open
                           (ex_globals [1]) [] "{}")) (JObj []));
      reflexivity.
  - apply (proj2 (proj2 (similarity_error_order ex_json_loads_x ex_Image_open
                           (ex_globals [1]) [] ex_text_input))
             (JObj [("text_list", JArr [JStr "red dress"])]) (mkTextInput ["red dress"]));
      reflexivity.
Defined.

Lemma similarity_single_label_certain_witness :
  fst (app ex_json_loads ex_Image_open ex_similarity_request (ex_globals [1]))
    = Ok (mkResponse 200 (Some (JObj [("probabilities", JArr [JNum (Fin 1)]);
                                      ("labels", JArr [JStr "red dress"])]))).
Proof.
  destruct ex_similarity_run as [p Hrun].
  rewrite (similarity_single_label_certain ex_json_loads ex_Image_open (ex_globals [1])
             ex_similarity_request _ ex_text_input [("text_list", JArr [JStr "red dress"])]
             "red dress" (ex_model_ok [1] eq_refl) eq_refl eq_refl eq_refl
             (ltac:(vm_compute; reflexivity)) eq_refl Hrun) in Hrun.
  exact Hrun.
Defined.

Lemma features_same_dimension_witness :
  exists (row : list json) (rows : list (list json)),
    Forall (fun r => List.length r = List.length row) rows /\ row <> [].
Proof.
  destruct (features_same_dimension ex_json_loads ex_Image_open (ex_globals [1])
              ex_image_request (ex_request "/encode_text/" None None (Some ex_text_input))
              _ _ (ex_model_ok [1] eq_refl) eq_refl eq_refl eq_refl eq_refl
              ex_encode_image_run ex_encode_text_run)
    as [row [rows [ti [_ [_ [_ [_ [Hd Hne]]]]]]]].
  exists row, rows. split; [exact Hd|exact Hne].
Defined.

Lemma responses_invariant_under_scaling_witness :
  fst (app ex_json_loads ex_Image_open ex_similarity_request (scale_model 2 3 (ex_globals [1])))
  = fst (app ex_json_loads ex_Image_open ex_similarity_request (ex_globals [1])).
Proof. apply responses_invariant_under_scaling; lra. Defined.

Lemma cors_preflight_answer_witness :
  (exists resp,
    (forall g : Globals unit unit (list string),
       cors_app ex_json_loads ex_Image_open ex_preflight g = (Ok resp, g)) /\
    status (cors_resp resp) = 400%Z /\ allow_origin_header resp = None) /\
  (exists resp,
    (forall g : Globals unit unit (list string),
       cors_app ex_json_loads ex_Image_open
         (mkCorsRequest (mkRequest "OPTIONS" "/encode_text/" None None None)
            (Some "http://localhost:5173") (Some "QUERY") None) g = (Ok resp, g)) /\
    status (cors_resp resp) = 200%Z /\ allow_origin_header resp = Some "http://localhost:5173").
Proof.
  split.
  - destruct (@cors_preflight_answer unit unit (list string) ex_json_loads ex_Image_open
                ex_preflight "http://example.org" "POST" eq_refl eq_refl eq_refl)
      as [resp [Hg [Hiff [H400 [_ Hno]]]]].
    exists resp. split; [exact Hg|]. split.
    + apply H400. intros H. apply Hiff in H as [H _]. discriminate.
    + apply Hno. discriminate.
  - destruct (@cors_preflight_answer unit unit (list string) ex_json_loads ex_Image_open
                (mkCorsRequest (mkRequest "OPTIONS" "/encode_text/" None None None)
                   (Some "http://localhost:5173") (Some "QUERY") None)
                "http://localhost:5173" "QUERY" eq_refl eq_refl eq_refl)
      as [resp [Hg [Hiff [_ [Hyes _]]]]].
    exists resp. split; [exact Hg|]. split.
    + apply Hiff. split; [reflexivity|simpl; tauto].
    + apply Hyes. reflexivity.
Defined.


Lemma cors_routed_answer_witness :
  exists resp,
    cors_app ex_json_loads ex_Image_open ex_cors_upload (ex_globals [1])
      = (Ok resp, ex_globals [1]) /\
    cors_resp resp = mkResponse 200 (Some (JObj [("features", JArr [JArr [JNum (Fin 1)]])])) /\
    allow_origin_header resp = Some "http://localhost:5173".
Proof.
  assert (Hnp : origin ex_cors_upload = None \/
                req_method (cors_inner ex_cors_upload) <> "OPTIONS" \/
                access_control_request_method ex_cors_upload = None)
    by (right; right; reflexivity).
  destruct (cors_routed_answer ex_json_loads ex_Image_open (ex_globals [1]) ex_cors_upload Hnp)
    as [r [resp [Hr [Hc [Hcr [_ Hallowed]]]]]].
  pose proof ex_encode_image_run as He.
  change (ex_request "/encode_image/" (Some ex_png) None None)
    with (cors_inner ex_cors_upload) in He.
  rewrite He in Hr. injection Hr as <-.
  exists resp. split; [exact Hc|]. split; [exact Hcr|].
  destruct (Hallowed "http://localhost:5173" eq_refl) as [_ [Hiff _]];
    [simpl; discriminate|].
  apply Hiff. reflexivity.
Defined.
